(** * ociaideparser: the AIDE report parser of [parser.py]

    A shallow embedding of [truncateString] and [aideJson] and the
    properties the specification states about them.

    Modelling conventions.
    - A Python [str] is a list of characters; a character is a code point
      below 256, so the classes below are Python's Unicode classes
      restricted to that range.
    - [aideJson] is taken from the point where [file.readlines()] has
      returned: its input is the list of lines.  The [open] call and its
      two [except] branches, which only log and return [None], are in
      [aideJson_path], with the rest of the workflow.
    - A Python exception is an explicit outcome [Raise e]; returning [None]
      is [Ok None].
    - [currentTimestamp()] reads a wall clock.  The clock is a parameter
      [clock : nat -> str] giving the reading of the n-th call, and the loop
      counts its calls. *)

From Stdlib Require Import String Ascii List ZArith Lia Bool Arith.
From Stdlib Require Import NArith.
From Stdlib Require Decimal DecimalString DecimalPos.
Import ListNotations.

Definition str := list ascii.

Definition lit (s : string) : str := list_ascii_of_string s.

(** ** Python string primitives *)

Module Py.

(** [str.isspace] on one character, which is also the class [\s] of a
    [str] pattern: TAB LF VT FF CR, FS GS RS US, SPACE, NEL and NBSP. *)
Definition isspace (c : ascii) : bool :=
  let n := nat_of_ascii c in
  ((9 <=? n) && (n <=? 13)) || ((28 <=? n) && (n <=? 32))
  || (n =? 133) || (n =? 160).

(** The class [\d] of a [str] pattern: the decimal digits. *)
Definition isdecimal (c : ascii) : bool :=
  let n := nat_of_ascii c in (48 <=? n) && (n <=? 57).

(** [a == b] *)
Fixpoint eqb (a b : str) : bool :=
  match a, b with
  | [], [] => true
  | x :: a', y :: b' => Ascii.eqb x y && eqb a' b'
  | _, _ => false
  end.

(** [s.startswith(p)] *)
Fixpoint startswith (p s : str) : bool :=
  match p, s with
  | [], _ => true
  | _ :: _, [] => false
  | a :: p', b :: s' => Ascii.eqb a b && startswith p' s'
  end.

(** [p in s] *)
Fixpoint contains (p s : str) : bool :=
  startswith p s ||
  match s with
  | [] => false
  | _ :: s' => contains p s'
  end.

Fixpoint lstrip (s : str) : str :=
  match s with
  | c :: s' => if isspace c then lstrip s' else s
  | [] => []
  end.

Definition rstrip (s : str) : str := rev (lstrip (rev s)).

(** [s.strip()] *)
Definition strip (s : str) : str := rstrip (lstrip s).

(** [s] without the prefix [p], when [s] starts with [p]. *)
Fixpoint drop_prefix (p s : str) : option str :=
  match p, s with
  | [], _ => Some s
  | _ :: _, [] => None
  | a :: p', b :: s' => if Ascii.eqb a b then drop_prefix p' s' else None
  end.

(** [s.split(sep, 1)] for a non-empty [sep]: the text before and after the
    first occurrence of [sep], or [s] alone when there is none. *)
Fixpoint split1 (sep s : str) : list str :=
  match drop_prefix sep s with
  | Some r => [[]; r]
  | None =>
      match s with
      | [] => [[]]
      | c :: s' =>
          match split1 sep s' with
          | h :: t => (c :: h) :: t
          | [] => [[c]]
          end
      end
  end.

(** [s[:k]], with Python's reading of a negative bound. *)
Definition slice_to (k : Z) (s : str) : str :=
  if (k <? 0)%Z
  then firstn (Z.to_nat (Z.of_nat (length s) + k)) s
  else firstn (Z.to_nat k) s.

(** The exceptions the parser can raise. *)
Inductive exn := IndexError | ValueError.

Inductive res (A : Type) : Type :=
| Ok (a : A)
| Raise (e : exn).
Arguments Ok {A} a.
Arguments Raise {A} e.

Definition bind {A B} (m : res A) (f : A -> res B) : res B :=
  match m with
  | Ok a => f a
  | Raise e => Raise e
  end.

(** Value of a run of decimal digits. *)
Definition digit_value (c : ascii) : Z := Z.of_nat (nat_of_ascii c) - 48.

Definition int_value (ds : str) : Z :=
  fold_left (fun acc c => 10 * acc + digit_value c)%Z ds 0%Z.

(** CPython 3.11 refuses to convert a decimal string of more than
    [sys.get_int_max_str_digits()] digits, 4300 by default. *)
Definition int_max_str_digits : nat := 4300.

(** [int(ds)] on a non-empty run of decimal digits. *)
Definition int (ds : str) : res Z :=
  if int_max_str_digits <? length ds then Raise ValueError
  else Ok (int_value ds).

End Py.

Notation "x <- m ;; k" := (Py.bind m (fun x => k))
  (at level 61, m at next level, right associativity).

(** ** The fragment of [re] the parser uses

    A backtracking matcher in continuation-passing style: the
    continuation is tried on the rest of the subject, a greedy repetition
    tries the longest run first and an alternation its left branch first,
    as [re] does.  Repetition is only ever applied to a character class. *)

Module Re.

Inductive regex :=
| Lit (l : str)
| Cls (p : ascii -> bool)
| Star (p : ascii -> bool)
| Plus (p : ascii -> bool)
| Seq (r1 r2 : regex)
| Alt (r1 r2 : regex).

Fixpoint star {A} (p : ascii -> bool) (k : str -> option A) (s : str)
  : option A :=
  match s with
  | c :: s' =>
      if p c then
        match star p k s' with
        | Some a => Some a
        | None => k s
        end
      else k s
  | [] => k []
  end.

Fixpoint run {A} (r : regex) (k : str -> option A) (s : str) : option A :=
  match r with
  | Lit l =>
      match Py.drop_prefix l s with
      | Some s' => k s'
      | None => None
      end
  | Cls p =>
      match s with
      | c :: s' => if p c then k s' else None
      | [] => None
      end
  | Star p => star p k s
  | Plus p =>
      match s with
      | c :: s' => if p c then star p k s' else None
      | [] => None
      end
  | Seq r1 r2 => run r1 (run r2 k) s
  | Alt r1 r2 =>
      match run r1 k s with
      | Some a => Some a
      | None => run r2 k s
      end
  end.

(** [re.search]: the first start position, from the left, at which the
    anchored matcher [m] succeeds. *)
Fixpoint search {A} (m : str -> option A) (s : str) : option A :=
  match m s with
  | Some a => Some a
  | None =>
      match s with
      | [] => None
      | _ :: s' => search m s'
      end
  end.

(** [.] without DOTALL: any character but LF. *)
Definition dot (c : ascii) : bool := negb (Ascii.eqb c "010"%char).

Definition one_of (l : str) (c : ascii) : bool :=
  existsb (Ascii.eqb c) l.

(** [re.search(f"\s*{label}:\s+(\d+)", s)], giving [match.group(1)]. *)
Definition summary_prefix (label : str) : regex :=
  Seq (Star Py.isspace)
      (Seq (Lit label) (Seq (Lit (lit ":")) (Plus Py.isspace))).

Definition summary_at (label : str) (s : str) : option str :=
  run (summary_prefix label)
      (fun s1 =>
         run (Plus Py.isdecimal)
             (fun s2 => Some (firstn (length s1 - length s2) s1)) s1)
      s.

Definition search_summary (label s : str) : option str :=
  search (summary_at label) s.

(** [re.match(r'^\s*[fd](\s+.*|\s*[+\-.]+):\s*\/', s)] as a truth value. *)
Definition entry_regex : regex :=
  Seq (Star Py.isspace)
      (Seq (Cls (one_of (lit "fd")))
           (Seq (Alt (Seq (Plus Py.isspace) (Star dot))
                     (Seq (Star Py.isspace) (Plus (one_of (lit "+-.")))))
                (Seq (Lit (lit ":"))
                     (Seq (Star Py.isspace) (Lit (lit "/")))))).

Definition match_entry (s : str) : bool :=
  match run entry_regex (fun _ => Some tt) s with
  | Some _ => true
  | None => false
  end.

End Re.

(** ** [truncateString] *)

Definition MAX_LENGTH : Z := 100.

Definition truncateString (value : str) (max_length : Z) : str :=
  if (Z.of_nat (length value) >? max_length)%Z
  then Py.slice_to (max_length - 3) value ++ lit "..."
  else value.

(** ** The record built by [aideJson] *)

(** The keys [summary_patterns] can add to [data]. *)
Inductive summary_key :=
| total_entries
| added_summary
| removed_summary
| changed_summary.

Definition summary_key_eqb (a b : summary_key) : bool :=
  match a, b with
  | total_entries, total_entries
  | added_summary, added_summary
  | removed_summary, removed_summary
  | changed_summary, changed_summary => true
  | _, _ => false
  end.

(** The part of the dict whose keys appear only when they are assigned:
    an association list in insertion order. *)
Definition summary_dict := list (summary_key * Z).

Fixpoint dict_get (k : summary_key) (d : summary_dict) : option Z :=
  match d with
  | [] => None
  | (k', v) :: d' => if summary_key_eqb k k' then Some v else dict_get k d'
  end.

(** [d[k] = v]: an existing key keeps its place, a new one goes last. *)
Fixpoint dict_set (k : summary_key) (v : Z) (d : summary_dict)
  : summary_dict :=
  match d with
  | [] => [(k, v)]
  | (k', v') :: d' =>
      if summary_key_eqb k k' then (k, v) :: d'
      else (k', v') :: dict_set k v d'
  end.

(** [data]: the keys of the dict literal are fields (the four constant ones
    are written out by [json_of_data]), the summary keys live in
    [summary]. *)
Record data := mkData {
  timestamp : option str;
  added_entries : list str;
  removed_entries : list str;
  changed_entries : list str;
  summary : summary_dict
}.

Definition data0 : data :=
  {| timestamp := None;
     added_entries := [];
     removed_entries := [];
     changed_entries := [];
     summary := [] |}.

Definition summary_patterns : list (str * summary_key) :=
  [ (lit "Total number of entries", total_entries);
    (lit "Added entries", added_summary);
    (lit "Removed entries", removed_summary);
    (lit "Changed entries", changed_summary) ].

(** The variable [state] of the loop. *)
Inductive section_state := initial | added | removed | changed.

(** The three list-valued keys. *)
Inductive entries_key := k_added | k_removed | k_changed.

Definition entries (k : entries_key) (d : data) : list str :=
  match k with
  | k_added => added_entries d
  | k_removed => removed_entries d
  | k_changed => changed_entries d
  end.

(** The list the [if]/[elif] chain on [state] appends to. *)
Definition target (s : section_state) : option entries_key :=
  match s with
  | initial => None
  | added => Some k_added
  | removed => Some k_removed
  | changed => Some k_changed
  end.

Definition set_summary (k : summary_key) (v : Z) (d : data) : data :=
  {| timestamp := timestamp d;
     added_entries := added_entries d;
     removed_entries := removed_entries d;
     changed_entries := changed_entries d;
     summary := dict_set k v (summary d) |}.

Definition set_timestamp (t : str) (d : data) : data :=
  {| timestamp := Some t;
     added_entries := added_entries d;
     removed_entries := removed_entries d;
     changed_entries := changed_entries d;
     summary := summary d |}.

(** [data[...].append(p)] under the current [state]. *)
Definition append_entry (s : section_state) (p : str) (d : data) : data :=
  match s with
  | initial => d
  | added =>
      {| timestamp := timestamp d;
         added_entries := added_entries d ++ [p];
         removed_entries := removed_entries d;
         changed_entries := changed_entries d;
         summary := summary d |}
  | removed =>
      {| timestamp := timestamp d;
         added_entries := added_entries d;
         removed_entries := removed_entries d ++ [p];
         changed_entries := changed_entries d;
         summary := summary d |}
  | changed =>
      {| timestamp := timestamp d;
         added_entries := added_entries d;
         removed_entries := removed_entries d;
         changed_entries := changed_entries d ++ [p];
         summary := summary d |}
  end.

(** ** [aideJson] *)

Definition START_MARK : str := lit "Start timestamp:".
Definition END_MARK : str := lit "End timestamp:".
Definition BANNER_DIFF : str :=
  lit "AIDE found differences between database and filesystem!!".
Definition BANNER_VERSION : str := lit "AIDE, version".
Definition HDR_ADDED : str := lit "Added entries:".
Definition HDR_REMOVED : str := lit "Removed entries:".
Definition HDR_CHANGED : str := lit "Changed entries:".

(** What the [for line in lines] loop carries from one line to the next. *)
Record loop := mkLoop {
  dat : data;
  state : section_state;
  ticks : nat
}.

Definition loop0 : loop := {| dat := data0; state := initial; ticks := 0 |}.

(** The inner [for label, key in summary_patterns.items()] loop: the first
    label whose pattern is found decides, then [break]. *)
Fixpoint summary_loop (pats : list (str * summary_key)) (stripped_line : str)
    (d : data) : Py.res data :=
  match pats with
  | [] => Py.Ok d
  | (label, key) :: pats' =>
      match Re.search_summary label stripped_line with
      | Some group1 =>
          n <- Py.int group1 ;;
          Py.Ok (set_summary key n d)
      | None => summary_loop pats' stripped_line d
      end
  end.

Section Parser.

Variable clock : nat -> str.

(** One iteration of the loop body. *)
Definition process_line (st : loop) (line : str) : Py.res loop :=
  let stripped_line := Py.strip line in
  if Py.contains START_MARK line then
    Py.Ok {| dat := set_timestamp (clock (ticks st)) (dat st);
             state := state st;
             ticks := S (ticks st) |}
  else
    d <- summary_loop summary_patterns stripped_line (dat st) ;;
    if Py.contains HDR_ADDED stripped_line then
      Py.Ok {| dat := d; state := added; ticks := ticks st |}
    else if Py.contains HDR_REMOVED stripped_line then
      Py.Ok {| dat := d; state := removed; ticks := ticks st |}
    else if Py.contains HDR_CHANGED stripped_line then
      Py.Ok {| dat := d; state := changed; ticks := ticks st |}
    else if Re.match_entry stripped_line then
      match nth_error (Py.split1 (lit ": ") stripped_line) 1 with
      | None => Py.Raise Py.IndexError
      | Some path =>
          Py.Ok {| dat := append_entry (state st)
                            (truncateString path MAX_LENGTH) d;
                   state := state st;
                   ticks := ticks st |}
      end
    else Py.Ok {| dat := d; state := state st; ticks := ticks st |}.

Fixpoint run_lines (st : loop) (lines : list str) : Py.res loop :=
  match lines with
  | [] => Py.Ok st
  | line :: rest =>
      st' <- process_line st line ;;
      run_lines st' rest
  end.

(** [lines[-1]] of a non-empty list. *)
Definition last_line (lines : list str) : str := last lines [].

(** The structural checks, in the order of the source; [true] when the
    function goes on to the loop. *)
Definition structure_ok (lines : list str) : bool :=
  match lines with
  | [] => false
  | line0 :: _ =>
      if negb (Py.startswith START_MARK line0) then false
      else if negb (Py.startswith END_MARK (last_line lines)) then false
      else
        match nth_error lines 1 with
        | None => false
        | Some line1 =>
            negb (negb (Py.contains BANNER_DIFF line1)
                  && negb (Py.contains BANNER_VERSION line1))
        end
  end.

(** [aideJson] on the lines read from the file: [Ok None] is the failure
    signal, [Ok (Some d)] the record, [Raise e] an uncaught exception. *)
Definition aideJson (lines : list str) : Py.res (option data) :=
  if structure_ok lines then
    st <- run_lines loop0 lines ;;
    Py.Ok (Some (dat st))
  else Py.Ok None.

End Parser.

(** ** The JSON object [json.dumps(data)] writes *)

#[warnings="-register-all"]
Inductive json :=
| JNull
| JInt (z : Z)
| JStr (s : str)
| JArr (l : list json)
| JObj (members : list (str * json)).

Definition key_name (k : summary_key) : str :=
  match k with
  | total_entries => lit "total_entries"
  | added_summary => lit "added_summary"
  | removed_summary => lit "removed_summary"
  | changed_summary => lit "changed_summary"
  end.

Definition json_of_option_str (o : option str) : json :=
  match o with
  | None => JNull
  | Some s => JStr s
  end.

(** One member per key of the dict, in insertion order. *)
Definition json_members (d : data) : list (str * json) :=
  [ (lit "timestamp", json_of_option_str (timestamp d));
    (lit "error_severity", JStr (lit "LOG"));
    (lit "application_name", JStr (lit "AIDE"));
    (lit "backend_type", JStr (lit "log_analyzer"));
    (lit "added_entries", JArr (map JStr (added_entries d)));
    (lit "removed_entries", JArr (map JStr (removed_entries d)));
    (lit "changed_entries", JArr (map JStr (changed_entries d)));
    (lit "message", JStr (lit "AIDE Log Analysis")) ]
  ++ map (fun kv => (key_name (fst kv), JInt (snd kv))) (summary d).

Definition json_of_data (d : data) : json := JObj (json_members d).

(** The members stored under a key. *)
Definition json_lookup (k : str) (m : list (str * json)) : list json :=
  map snd (filter (fun kv => Py.eqb k (fst kv)) m).

(** ** What one line contributes

    The three decisions of the loop body, each as a function of the line
    alone; the lemmas below relate them to [process_line]. *)

(** The key and group 1 of the first label of the table found in [s]. *)
Fixpoint first_summary (pats : list (str * summary_key)) (s : str)
  : option (summary_key * str) :=
  match pats with
  | [] => None
  | (label, key) :: pats' =>
      match Re.search_summary label s with
      | Some group1 => Some (key, group1)
      | None => first_summary pats' s
      end
  end.

(** The summary count a line records: none on a line skipped for carrying
    [Start timestamp:], otherwise that of the first label found. *)
Definition line_summary (line : str) : option (summary_key * str) :=
  if Py.contains START_MARK line then None
  else first_summary summary_patterns (Py.strip line).

(** The section a line enters, when the loop takes it for a header. *)
Definition header_of (line : str) : option section_state :=
  if Py.contains START_MARK line then None
  else
    let s := Py.strip line in
    if Py.contains HDR_ADDED s then Some added
    else if Py.contains HDR_REMOVED s then Some removed
    else if Py.contains HDR_CHANGED s then Some changed
    else None.

(** The path of a line the loop takes for an entry. *)
Definition entry_path (line : str) : option str :=
  if Py.contains START_MARK line then None
  else
    match header_of line with
    | Some _ => None
    | None =>
        if Re.match_entry (Py.strip line)
        then nth_error (Py.split1 (lit ": ") (Py.strip line)) 1
        else None
    end.

(** The section entered by the last header among [lines], if any. *)
Fixpoint last_header (lines : list str) : option section_state :=
  match lines with
  | [] => None
  | l :: rest =>
      match last_header rest with
      | Some s => Some s
      | None => header_of l
      end
  end.

(** [subseq l1 l2]: [l1] is [l2] with some elements left out. *)
Inductive subseq {A : Type} : list A -> list A -> Prop :=
| subseq_nil : subseq [] []
| subseq_skip x l1 l2 : subseq l1 l2 -> subseq l1 (x :: l2)
| subseq_take x l1 l2 : subseq l1 l2 -> subseq (x :: l1) (x :: l2).

Definition entries_key_eqb (a b : entries_key) : bool :=
  match a, b with
  | k_added, k_added | k_removed, k_removed | k_changed, k_changed => true
  | _, _ => false
  end.

(** What a line read in section [s] adds to the list under [k]. *)
Definition appended (s : section_state) (k : entries_key) (line : str)
  : list str :=
  match entry_path line, target s with
  | Some path, Some k' =>
      if entries_key_eqb k k' then [truncateString path MAX_LENGTH] else []
  | _, _ => []
  end.

(** The relation between a source line and the path it puts in a list. *)
Definition path_of_line (line p : str) : Prop :=
  exists path, entry_path line = Some path
               /\ p = truncateString path MAX_LENGTH.

(** The text of a summary count line: a label, a colon, white space [w]
    and digits [ds]. *)
Definition summary_text (label w ds : str) : str :=
  label ++ lit ":" ++ w ++ ds.

(** The section a summary line of each key leaves the loop in. *)
Definition state_after_summary (key : summary_key) (s : section_state)
  : section_state :=
  match key with
  | total_entries => s
  | added_summary => added
  | removed_summary => removed
  | changed_summary => changed
  end.

(** The lines on which the loop body raises nothing: a count short enough
    for [int], and a colon followed by a space wherever the entry pattern
    is tried and matches. *)
Definition line_safe (line : str) : bool :=
  Py.contains START_MARK line
  || (match first_summary summary_patterns (Py.strip line) with
      | Some (_, group1) => length group1 <=? Py.int_max_str_digits
      | None => true
      end
      && match header_of line with
         | Some _ => true
         | None =>
             negb (Re.match_entry (Py.strip line))
             || Py.contains (lit ": ") (Py.strip line)
         end).

(** [absent a s]: the character [a] does not occur in [s]. *)
Definition absent (a : ascii) (s : str) : bool :=
  forallb (fun c => negb (Ascii.eqb a c)) s.

Definition LF : ascii := "010"%char.
Definition TAB : ascii := "009"%char.

(** A line of the file: the text and its line feed. *)
Definition nl (s : string) : str := lit s ++ [LF].

(** A line of the summary block as the checker prints it: indented, the
    count after a tab. *)
Definition count_line (label count : string) : str :=
  lit "  " ++ summary_text (lit label) [TAB] (lit count) ++ [LF].

(** ** Reports used as examples *)

Definition clock0 : nat -> str := fun _ => lit "2024-01-01 00:00:00.000".

Definition line_start : str := nl "Start timestamp: 2024-01-01 00:00:00".
Definition line_banner : str :=
  nl "AIDE found differences between database and filesystem!!".
Definition line_end : str := nl "End timestamp: 2024-01-01 00:00:01".

(** Scenario A of the specification. *)
Definition report_scenario_a : list str :=
  [ line_start; line_banner;
    nl "Added entries:";
    nl "f++++++++++++++: /etc/passwd";
    line_end ].

(** An entry line whose colon is not followed by a space. *)
Definition report_no_space : list str :=
  [ line_start; line_banner;
    nl "Added entries:";
    nl "f++++++++++++++:/etc/passwd";
    line_end ].

(** A summary count of 4301 digits. *)
Definition report_long_count : list str :=
  [ line_start; line_banner;
    lit "Total number of entries: " ++ repeat "1"%char 4301 ++ [LF];
    line_end ].

(** A report with all three sections, its summary block and an entry
    line after it. *)
Definition report_sections : list str :=
  [ line_start; line_banner;
    nl "Summary:";
    count_line "Total number of entries" "42";
    count_line "Added entries" "1";
    count_line "Removed entries" "1";
    count_line "Changed entries" "2";
    nl "Added entries:";
    nl "f++++++++++++++++: /etc/new.conf";
    nl "Removed entries:";
    nl "f----------------: /etc/old.conf";
    nl "Changed entries:";
    nl "f   ...    .C... : /etc/hosts";
    nl "d =.... mc.. .. : /etc";
    nl "Total number of entries: 42";
    nl "f   ...    .C... : /etc/fstab";
    line_end ].

Definition record_of (lines : list str) : data :=
  match aideJson clock0 lines with
  | Py.Ok (Some d) => d
  | _ => data0
  end.

(** Two lines with a total count. *)
Definition report_two_totals : list str :=
  [ line_start; line_banner;
    nl "Total number of entries: 42";
    nl "Total number of entries: 7";
    line_end ].

(** A summary count line read inside another section. *)
Definition report_summary_in_section : list str :=
  [ line_start; line_banner;
    nl "Removed entries:";
    nl "Added entries: 5";
    nl "f----------------: /etc/old.conf";
    line_end ].

(** A line carrying two labels with their counts. *)
Definition line_two_labels : str :=
  nl "Changed entries: 3 Total number of entries: 9".

Definition report_two_labels : list str :=
  [ line_start; line_banner; line_two_labels; line_end ].


(** ** Further vocabulary for the pass *)

(** The number of lines on which the loop reads the clock. *)
Definition count_starts (lines : list str) : nat :=
  length (filter (Py.contains START_MARK) lines).

(** [ends_nonspace p]: [p] is not empty and its last character is not
    white space. *)
Definition ends_nonspace (p : str) : bool :=
  match rev p with
  | c :: _ => negb (Py.isspace c)
  | [] => false
  end.

(** Entry lines and no section header. *)
Definition report_no_header : list str :=
  [ line_start; line_banner;
    nl "f++++++++++++++: /etc/passwd";
    nl "d++++++++++++++: /etc";
    line_end ].

(** Induction on [json] through the lists it nests. *)
Fixpoint json_nested_ind (P : json -> Prop)
    (HNull : P JNull) (HInt : forall z, P (JInt z))
    (HStr : forall s, P (JStr s))
    (HArr : forall l, Forall P l -> P (JArr l))
    (HObj : forall m, Forall (fun kv => P (snd kv)) m -> P (JObj m))
    (j : json) : P j :=
  match j with
  | JNull => HNull
  | JInt z => HInt z
  | JStr s => HStr s
  | JArr l =>
      HArr l
        ((fix items (l : list json) : Forall P l :=
            match l with
            | [] => Forall_nil P
            | x :: r =>
                Forall_cons x
                  (json_nested_ind P HNull HInt HStr HArr HObj x) (items r)
            end) l)
  | JObj m =>
      HObj m
        ((fix members (m : list (str * json))
            : Forall (fun kv => P (snd kv)) m :=
            match m with
            | [] => Forall_nil _
            | kv :: r =>
                Forall_cons kv
                  (json_nested_ind P HNull HInt HStr HArr HObj (snd kv))
                  (members r)
            end) m)
  end.

(** ** The text [json.dumps] writes

    [json.dumps(data, separators=(',', ':'))] with its default
    [ensure_ascii=True]: members and items in order, no white space. *)

Module Json.

Definition QUOTE : ascii := "034"%char.
Definition BACKSLASH : ascii := "092"%char.

Definition hex_digit (n : nat) : ascii :=
  nth n (lit "0123456789abcdef") "0"%char.

(** One character inside a string: the short escapes, the printable ASCII
    characters as they are, and [\u00xx] for every other one. *)
Definition escape (c : ascii) : str :=
  let n := nat_of_ascii c in
  if n =? 34 then [BACKSLASH; QUOTE]
  else if n =? 92 then [BACKSLASH; BACKSLASH]
  else if n =? 10 then [BACKSLASH; "n"%char]
  else if n =? 13 then [BACKSLASH; "r"%char]
  else if n =? 9 then [BACKSLASH; "t"%char]
  else if n =? 8 then [BACKSLASH; "b"%char]
  else if n =? 12 then [BACKSLASH; "f"%char]
  else if (32 <=? n) && (n <=? 126) then [c]
  else [BACKSLASH; "u"%char; "0"%char; "0"%char;
        hex_digit (n / 16); hex_digit (n mod 16)].

Definition encode_str (s : str) : str :=
  QUOTE :: flat_map escape s ++ [QUOTE].

(** [str(z)] of an [int]. *)
Definition encode_int (z : Z) : str :=
  list_ascii_of_string
    (DecimalString.NilZero.string_of_int (Z.to_int z)).

(** [sep.join(l)] *)
Fixpoint join (sep : str) (l : list str) : str :=
  match l with
  | [] => []
  | x :: r =>
      match r with
      | [] => x
      | _ :: _ => x ++ sep ++ join sep r
      end
  end.

Fixpoint dumps (j : json) : str :=
  match j with
  | JNull => lit "null"
  | JInt z => encode_int z
  | JStr s => encode_str s
  | JArr l => lit "[" ++ join (lit ",") (map dumps l) ++ lit "]"
  | JObj m =>
      lit "{"
      ++ join (lit ",")
           (map (fun kv => encode_str (fst kv) ++ lit ":" ++ dumps (snd kv))
                m)
      ++ lit "}"
  end.

(** The characters [json.dumps] may write: space to tilde. *)
Definition printable (c : ascii) : bool :=
  let n := nat_of_ascii c in (32 <=? n) && (n <=? 126).

End Json.

Definition json_dumps (d : data) : str := Json.dumps (json_of_data d).

(** ** [currentTimestamp] *)

(** The fields of a [datetime]. *)
Record datetime := mkDatetime {
  year : N;
  month : N;
  day : N;
  hour : N;
  minute : N;
  second : N;
  microsecond : N
}.

(** The ranges [datetime] keeps its fields in (the day is at most the
    length of its month, which plays no part here). *)
Definition datetime_valid (t : datetime) : Prop :=
  (1 <= year t <= 9999 /\ 1 <= month t <= 12 /\ 1 <= day t <= 31
   /\ hour t < 24 /\ minute t < 60 /\ second t < 60
   /\ microsecond t < 1000000)%N.

Definition digit_char (n : N) : ascii := ascii_of_N (48 + n mod 10).

(** The [w] low decimal digits of [n]: C's [%0wd] for [n < 10 ^ w], which
    is where [strftime] uses it on a valid [datetime]. *)
Fixpoint zpad (w : nat) (n : N) : str :=
  match w with
  | 0 => []
  | S w' => zpad w' (n / 10) ++ [digit_char n]
  end.

(** [%Y] as glibc writes it: the year in decimal, not padded. *)
Definition str_of_N (n : N) : str :=
  list_ascii_of_string
    (DecimalString.NilZero.string_of_uint (N.to_uint n)).

(** [t.strftime('%Y-%m-%d %H:%M:%S.%f')] *)
Definition strftime (t : datetime) : str :=
  str_of_N (year t) ++ lit "-" ++ zpad 2 (month t) ++ lit "-"
  ++ zpad 2 (day t) ++ lit " " ++ zpad 2 (hour t) ++ lit ":"
  ++ zpad 2 (minute t) ++ lit ":" ++ zpad 2 (second t) ++ lit "."
  ++ zpad 6 (microsecond t).

(** [currentTimestamp()] when [datetime.utcnow()] is [now]. *)
Definition currentTimestamp (now : datetime) : str :=
  Py.slice_to (-3) (strftime now).

(** ** The workflow and its environment

    [configExist], [aideCheck], [aideUpdate], [aideJson] on a path and
    [mainWorkflow] act on the file system, run processes and write to the
    system log.  The environment is a parameter: a state [W] and what each
    call answers in a state.  A function returns its result, the state it
    leaves and the calls it made, in order.  [syslog.syslog] is taken not
    to raise. *)

Definition AIDE_DB_SRC : str := lit "/var/lib/aide/aide.db.new.gz".
Definition AIDE_DB_DST : str := lit "/var/lib/aide/aide.db.gz".
Definition AIDE_LOG_SRC : str := lit "/var/log/aide/aide.log".
Definition AIDE_LOG_TMP : str := lit "/var/log/aide/aide_temp.json".
Definition AIDE_LOG_DST : str := lit "/var/log/aide/aide.json".

Definition ARGV_CHECK : list str := [lit "aide"; lit "--check"].
Definition ARGV_UPDATE : list str := [lit "aide"; lit "--update"].

Inductive level := LOG_ERR | LOG_INFO.

(** What [subprocess.run] gives: a finished process, or an exception,
    kept as its text. *)
Inductive run_result :=
| Exited (returncode : Z) (stderr : str)
| RunRaised (e : str).

(** What [open(path, 'r')] followed by [readlines()] gives. *)
Inductive read_result :=
| ReadLines (lines : list str)
| FileNotFoundError
| PermissionError
| ReadRaised (e : str).

(** The calls a function makes on its environment. *)
Inductive event :=
| Syslog (lv : level) (message : str)
| PathExists (path : str) (found : bool)
| SubprocessRun (argv : list str) (result : run_result)
| ReadFile (path : str)
| WriteFile (path : str) (text : str) (ok : bool)
| Rename (src dst : str) (ok : bool).

(** An exception that leaves a function of the workflow. *)
Inductive raised :=
| ParserRaised (e : Py.exn)
| OSRaised (e : str).

Inductive outcome (A : Type) : Type :=
| Returned (a : A)
| Raised (e : raised).
Arguments Returned {A} a.
Arguments Raised {A} e.

Record environment (W : Type) := mkEnvironment {
  os_path_exists : str -> W -> bool;
  subprocess_run : list str -> W -> run_result * W;
  read_lines : str -> W -> read_result;
  (** [open(path, 'w')], the writes and the close: the exception, if any *)
  write_text : str -> str -> W -> option str * W;
  os_rename : str -> str -> W -> option str * W;
  (** the reading of [datetime.utcnow()] at its n-th call *)
  utcnow : nat -> datetime
}.
Arguments os_path_exists {W} e.
Arguments subprocess_run {W} e.
Arguments read_lines {W} e.
Arguments write_text {W} e.
Arguments os_rename {W} e.
Arguments utcnow {W} e.

(** The message of the structural check that makes [aideJson] give up. *)
Definition structure_message (lines : list str) : str :=
  match lines with
  | [] => lit "Error: Log file is empty."
  | line0 :: _ =>
      if negb (Py.startswith START_MARK line0) then
        lit "Error: Invalid log format. Missing 'Start timestamp:' at the beginning."
      else if negb (Py.startswith END_MARK (last_line lines)) then
        lit "Error: Invalid log format. Missing 'End timestamp:' at the end."
      else lit "Error: No differences found or invalid log format."
  end.

Module IO.

Section Monad.

Variable W : Type.

Definition M (A : Type) : Type := W -> outcome A * W * list event.

Definition ret {A} (a : A) : M A := fun w => (Returned a, w, []).

Definition raise {A} (e : raised) : M A := fun w => (Raised e, w, []).

Definition bind {A B} (m : M A) (f : A -> M B) : M B :=
  fun w =>
    match m w with
    | (Returned a, w1, t1) =>
        match f a w1 with
        | (o, w2, t2) => (o, w2, t1 ++ t2)
        end
    | (Raised e, w1, t1) => (Raised e, w1, t1)
    end.

End Monad.

Arguments ret {W A} a.
Arguments raise {W A} e.
Arguments bind {W A B} m f.

End IO.

Notation "x <~ m ;; k" := (IO.bind m (fun x => k))
  (at level 61, m at next level, right associativity).
Notation "m ;;; k" := (IO.bind m (fun _ => k))
  (at level 61, right associativity).

Section Workflow.

Variable W : Type.
Variable E : environment W.

Definition syslog (lv : level) (message : str) : IO.M W unit :=
  fun w => (Returned tt, w, [Syslog lv message]).

Definition path_exists (path : str) : IO.M W bool :=
  fun w =>
    let found := os_path_exists E path w in
    (Returned found, w, [PathExists path found]).

Definition run (argv : list str) : IO.M W run_result :=
  fun w =>
    match subprocess_run E argv w with
    | (r, w1) => (Returned r, w1, [SubprocessRun argv r])
    end.

Definition read (path : str) : IO.M W read_result :=
  fun w => (Returned (read_lines E path w), w, [ReadFile path]).

(** The [with open(path, 'w')] block: an exception in it leaves the
    function. *)
Definition write (path text : str) : IO.M W unit :=
  fun w =>
    match write_text E path text w with
    | (None, w1) => (Returned tt, w1, [WriteFile path text true])
    | (Some e, w1) => (Raised (OSRaised e), w1, [WriteFile path text false])
    end.

(** [os.rename], its exception as a value for the caller to handle. *)
Definition rename (src dst : str) : IO.M W (option str) :=
  fun w =>
    match os_rename E src dst w with
    | (None, w1) => (Returned None, w1, [Rename src dst true])
    | (Some e, w1) => (Returned (Some e), w1, [Rename src dst false])
    end.

(** [[file for file in files if not os.path.exists(file)]] *)
Fixpoint missing_among (files : list str) : IO.M W (list str) :=
  match files with
  | [] => IO.ret []
  | file :: rest =>
      found <~ path_exists file ;;
      missing <~ missing_among rest ;;
      IO.ret (if found then missing else file :: missing)
  end.

Fixpoint log_missing (missing_files : list str) : IO.M W unit :=
  match missing_files with
  | [] => IO.ret tt
  | file :: rest =>
      syslog LOG_ERR
        (lit "Error: Expected config file " ++ file
         ++ lit " does not exist.") ;;;
      log_missing rest
  end.

Definition configExist : IO.M W bool :=
  missing_files <~ missing_among [AIDE_DB_DST; AIDE_LOG_SRC] ;;
  match missing_files with
  | [] => IO.ret true
  | _ :: _ => log_missing missing_files ;;; IO.ret false
  end.

(** The clock of the parser. *)
Definition clock_of : nat -> str := fun n => currentTimestamp (utcnow E n).

(** [aideJson(log_file_path)]: the [open] and its two handlers, then
    [aideJson] on the lines, with the message of a failed check. *)
Definition aideJson_path (log_file_path : str) : IO.M W (option data) :=
  r <~ read log_file_path ;;
  match r with
  | FileNotFoundError =>
      syslog LOG_ERR
        (lit "Error: The file " ++ log_file_path ++ lit " does not exist.") ;;;
      IO.ret None
  | PermissionError =>
      syslog LOG_ERR
        (lit "Error: Permission denied when accessing " ++ log_file_path
         ++ lit ".") ;;;
      IO.ret None
  | ReadRaised e => IO.raise (OSRaised e)
  | ReadLines lines =>
      match aideJson clock_of lines with
      | Py.Ok (Some d) => IO.ret (Some d)
      | Py.Ok None =>
          syslog LOG_ERR (structure_message lines) ;;; IO.ret None
      | Py.Raise e => IO.raise (ParserRaised e)
      end
  end.

(** [result.returncode in range(8)] *)
Definition in_range_8 (returncode : Z) : bool :=
  ((0 <=? returncode) && (returncode <? 8))%Z.

Definition aideCheck : IO.M W bool :=
  r <~ run ARGV_CHECK ;;
  match r with
  | Exited returncode stderr =>
      if in_range_8 returncode then
        syslog LOG_INFO (lit "AIDE Check: Changes detected.") ;;;
        IO.ret true
      else
        syslog LOG_ERR
          (lit "AIDE Check: Command failed with error:" ++ [LF] ++ stderr) ;;;
        IO.ret false
  | RunRaised e =>
      syslog LOG_ERR
        (lit "AIDE Check: Command failed with error:" ++ [LF] ++ e) ;;;
      IO.ret false
  end.

Definition UPDATE_FAILED : str :=
  lit "AIDE Update: Updating AIDE database failed with error:".

Definition aideUpdate : IO.M W bool :=
  r <~ run ARGV_UPDATE ;;
  match r with
  | RunRaised e =>
      syslog LOG_ERR (UPDATE_FAILED ++ [LF] ++ e) ;;; IO.ret false
  | Exited _ _ =>
      found <~ path_exists AIDE_DB_SRC ;;
      if found then
        x <~ rename AIDE_DB_SRC AIDE_DB_DST ;;
        match x with
        | Some e =>
            syslog LOG_ERR (UPDATE_FAILED ++ [LF] ++ e) ;;; IO.ret false
        | None =>
            syslog LOG_INFO
              (lit "AIDE Update: AIDE database updated successfully!") ;;;
            IO.ret true
        end
      else
        syslog LOG_ERR
          (lit "AIDE Update: Error: Source file " ++ AIDE_DB_SRC
           ++ lit " does not exist.") ;;;
        IO.ret false
  end.

Definition WORKFLOW_COMPLETED : str := lit "Workflow completed successfully!".

Definition mainWorkflow : IO.M W unit :=
  ok <~ configExist ;;
  if negb ok then
    syslog LOG_ERR (lit "Exiting due to missing configuration files.")
  else
    ok <~ aideCheck ;;
    if negb ok then
      syslog LOG_ERR (lit "AIDE Check: failed. Exiting...")
    else
      found <~ path_exists AIDE_LOG_SRC ;;
      if negb found then
        syslog LOG_ERR
          (lit "AIDE Check: Error: Expected log file " ++ AIDE_LOG_SRC
           ++ lit " not found after AIDE check. Exiting...")
      else
        data <~ aideJson_path AIDE_LOG_SRC ;;
        match data with
        | None =>
            syslog LOG_ERR
              (lit "AIDE Parse: Error: in parsing AIDE log. Exiting...")
        | Some d =>
            write AIDE_LOG_TMP (json_dumps d ++ [LF]) ;;;
            found <~ path_exists AIDE_LOG_TMP ;;
            if found then
              x <~ rename AIDE_LOG_TMP AIDE_LOG_DST ;;
              match x with
              | Some e => IO.raise (OSRaised e)
              | None =>
                  ok <~ aideUpdate ;;
                  if negb ok then
                    syslog LOG_ERR
                      (lit "AIDE Update: Failed to update AIDE database. Exiting...")
                  else syslog LOG_INFO WORKFLOW_COMPLETED
              end
            else
              syslog LOG_ERR
                (lit "AIDE Parse: Error: Temporary JSON log " ++ AIDE_LOG_TMP
                 ++ lit " not found. Exiting...")
        end.

End Workflow.

(** The calls [mainWorkflow] may make: the two commands, the report read,
    the temporary file written, and the two renames. *)
Definition allowed (ev : event) : Prop :=
  match ev with
  | Syslog _ _ => True
  | PathExists path _ =>
      path = AIDE_DB_DST \/ path = AIDE_LOG_SRC \/ path = AIDE_LOG_TMP
      \/ path = AIDE_DB_SRC
  | SubprocessRun argv _ => argv = ARGV_CHECK \/ argv = ARGV_UPDATE
  | ReadFile path => path = AIDE_LOG_SRC
  | WriteFile path _ _ => path = AIDE_LOG_TMP
  | Rename src dst _ =>
      (src = AIDE_LOG_TMP /\ dst = AIDE_LOG_DST)
      \/ (src = AIDE_DB_SRC /\ dst = AIDE_DB_DST)
  end.

(** An environment for examples: every path exists, every call succeeds,
    [aide] exits with [returncode] and the report file holds [report]. *)
Definition toy_environment (returncode : Z) (report : list str)
  : environment unit :=
  {| os_path_exists := fun _ _ => true;
     subprocess_run := fun _ w => (Exited returncode [], w);
     read_lines := fun _ _ => ReadLines report;
     write_text := fun _ _ w => (None, w);
     os_rename := fun _ _ w => (None, w);
     utcnow := fun _ => mkDatetime 2024 1 2 3 4 5 6789 |}.

(** The calls a run makes and how it ends. *)
Definition trace_of {W A} (m : IO.M W A) (w : W) : list event := snd (m w).

Definition outcome_of {W A} (m : IO.M W A) (w : W) : outcome A :=
  fst (fst (m w)).

(** The characters of a decimal number, and the loop of [int] on a text
    with the value read so far. *)
Definition chars_of (d : Decimal.uint) : str :=
  list_ascii_of_string (DecimalString.NilEmpty.string_of_uint d).

Definition fold_digits (ds : str) (acc : Z) : Z :=
  fold_left (fun a c => 10 * a + Py.digit_value c)%Z ds acc.

(** * Properties *)

(** ** Characters and strings *)

Lemma isdecimal_not_space c : Py.isdecimal c = true -> Py.isspace c = false.
Proof.
  destruct c as [[] [] [] [] [] [] [] []]; vm_compute; congruence.
Qed.

Lemma eqb_space_false a c :
  Py.isspace a = false -> Py.isspace c = true -> Ascii.eqb a c = false.
Proof.
  intros Ha Hc. destruct (Ascii.eqb a c) eqn:E; [|reflexivity].
  apply Ascii.eqb_eq in E. congruence.
Qed.

Lemma absent_app a s t : absent a (s ++ t) = absent a s && absent a t.
Proof. apply forallb_app. Qed.

Lemma absent_spaces a w :
  Py.isspace a = false -> forallb Py.isspace w = true -> absent a w = true.
Proof.
  intros Ha. induction w as [|c w IH]; simpl; [reflexivity|].
  intros H. apply andb_true_iff in H as [Hc Hw].
  rewrite (eqb_space_false _ _ Ha Hc). simpl. auto.
Qed.

Lemma absent_decimals a ds :
  Py.isdecimal a = false -> forallb Py.isdecimal ds = true ->
  absent a ds = true.
Proof.
  intros Ha. induction ds as [|c ds IH]; simpl; [reflexivity|].
  intros H. apply andb_true_iff in H as [Hc Hw].
  destruct (Ascii.eqb a c) eqn:E.
  - apply Ascii.eqb_eq in E. congruence.
  - simpl. auto.
Qed.

Lemma startswith_absent a p s :
  absent a s = true -> Py.startswith (a :: p) s = false.
Proof.
  destruct s as [|c s]; simpl; [reflexivity|].
  intros H. apply andb_true_iff in H as [H _].
  apply negb_true_iff in H. now rewrite H.
Qed.

Lemma contains_absent a p s :
  absent a s = true -> Py.contains (a :: p) s = false.
Proof.
  induction s as [|c s IH]; intros H.
  - reflexivity.
  - cbn [Py.contains]. rewrite (startswith_absent _ _ _ H).
    simpl in H. apply andb_true_iff in H as [_ H]. simpl. auto.
Qed.

Lemma drop_prefix_absent a p s :
  absent a s = true -> Py.drop_prefix (a :: p) s = None.
Proof.
  destruct s as [|c s]; simpl; [reflexivity|].
  intros H. apply andb_true_iff in H as [H _].
  apply negb_true_iff in H. now rewrite H.
Qed.

Lemma drop_prefix_app p r : Py.drop_prefix p (p ++ r) = Some r.
Proof.
  induction p as [|a p IH]; simpl.
  - now destruct r.
  - now rewrite Ascii.eqb_refl.
Qed.

Lemma startswith_app p r : Py.startswith p (p ++ r) = true.
Proof.
  induction p as [|a p IH]; simpl.
  - now destruct r.
  - now rewrite Ascii.eqb_refl.
Qed.

Lemma contains_prefix p r : Py.contains p (p ++ r) = true.
Proof.
  destruct (p ++ r) eqn:E; cbn [Py.contains]; rewrite <- E, startswith_app;
    reflexivity.
Qed.

(** [strip] only removes white space at both ends. *)
Lemma lstrip_decompose s :
  exists w, s = w ++ Py.lstrip s /\ forallb Py.isspace w = true.
Proof.
  induction s as [|c s [w [E Hw]]].
  - now exists [].
  - simpl. destruct (Py.isspace c) eqn:Hc.
    + exists (c :: w). simpl. rewrite Hc, Hw. split; [now f_equal|reflexivity].
    + now exists [].
Qed.

Lemma rstrip_decompose s :
  exists w, s = Py.rstrip s ++ w /\ forallb Py.isspace w = true.
Proof.
  unfold Py.rstrip. destruct (lstrip_decompose (rev s)) as [w [E Hw]].
  exists (rev w). split.
  - rewrite <- rev_app_distr, <- E. symmetry. apply rev_involutive.
  - rewrite forallb_forall in *. intros x Hx. apply Hw.
    now apply in_rev.
Qed.

Lemma strip_decompose s :
  exists w1 w2, s = w1 ++ Py.strip s ++ w2
                /\ forallb Py.isspace w1 = true
                /\ forallb Py.isspace w2 = true.
Proof.
  unfold Py.strip.
  destruct (lstrip_decompose s) as [w1 [E1 H1]].
  destruct (rstrip_decompose (Py.lstrip s)) as [w2 [E2 H2]].
  exists w1, w2. rewrite <- E2. auto.
Qed.

Lemma absent_of_strip a s :
  Py.isspace a = false -> absent a (Py.strip s) = true -> absent a s = true.
Proof.
  intros Ha H. destruct (strip_decompose s) as [w1 [w2 [E [H1 H2]]]].
  rewrite E, !absent_app, H, !absent_spaces by assumption. reflexivity.
Qed.

(** ** The matcher *)

Lemma star_skip {A} p (k : str -> option A) c s :
  p c = false -> Re.star p k (c :: s) = k (c :: s).
Proof. intros H. simpl. now rewrite H. Qed.

(** A greedy repetition takes the whole run when the continuation accepts
    what follows it. *)
Lemma star_greedy {A} p (k : str -> option A) w rest x :
  forallb p w = true -> Re.star p k rest = Some x ->
  Re.star p k (w ++ rest) = Some x.
Proof.
  induction w as [|c w IH]; simpl; intros Hw Hk; [assumption|].
  apply andb_true_iff in Hw as [Hc Hw]. rewrite Hc, (IH Hw Hk). reflexivity.
Qed.

(** A repetition followed by something that needs the character [a] finds
    nothing in a subject without [a]. *)
Lemma star_absent {A} p (k : str -> option A) a s :
  (forall t, absent a t = true -> k t = None) ->
  absent a s = true -> Re.star p k s = None.
Proof.
  intros Hk. induction s as [|c s IH]; intros H.
  - simpl. now apply Hk.
  - simpl. pose proof (Hk _ H) as Hcs. simpl in H.
    apply andb_true_iff in H as [_ H]. rewrite (IH H).
    now destruct (p c).
Qed.

Lemma summary_at_absent a l s :
  absent a s = true -> Re.summary_at (a :: l) s = None.
Proof.
  intros H. unfold Re.summary_at, Re.summary_prefix. cbn [Re.run].
  apply star_absent with (a := a); [|assumption].
  intros t Ht. now rewrite drop_prefix_absent.
Qed.

Lemma search_summary_absent a l s :
  absent a s = true -> Re.search_summary (a :: l) s = None.
Proof.
  unfold Re.search_summary. induction s as [|c s IH]; intros H.
  - reflexivity.
  - cbn [Re.search]. rewrite (summary_at_absent _ _ _ H).
    simpl in H. apply andb_true_iff in H as [_ H]. auto.
Qed.

Lemma search_hit {A} (m : str -> option A) s x :
  m s = Some x -> Re.search m s = Some x.
Proof. intros H. destruct s; simpl; now rewrite H. Qed.

(** On the text [label: <white space> <digits>] the pattern of [label]
    matches at the first position and group 1 is the digits. *)
Lemma search_summary_exact a l w ds :
  Py.isspace a = false ->
  w <> [] -> forallb Py.isspace w = true ->
  ds <> [] -> forallb Py.isdecimal ds = true ->
  Re.search_summary (a :: l) ((a :: l) ++ lit ":" ++ w ++ ds) = Some ds.
Proof.
  intros Ha Hw0 Hw Hd0 Hd.
  destruct w as [|c w]; [congruence|]. destruct ds as [|e ds]; [congruence|].
  simpl in Hw, Hd. apply andb_true_iff in Hw as [Hc Hw].
  apply andb_true_iff in Hd as [He Hd].
  unfold Re.search_summary.
  assert (E : Re.summary_at (a :: l)
                ((a :: l) ++ lit ":" ++ (c :: w) ++ e :: ds) = Some (e :: ds)).
  { unfold Re.summary_at, Re.summary_prefix. cbn [Re.run].
    change ((a :: l) ++ lit ":" ++ (c :: w) ++ e :: ds)
      with (a :: (l ++ lit ":" ++ (c :: w) ++ e :: ds)).
    rewrite star_skip by assumption.
    change (a :: (l ++ lit ":" ++ (c :: w) ++ e :: ds))
      with ((a :: l) ++ lit ":" ++ (c :: w) ++ e :: ds).
    rewrite drop_prefix_app. simpl. rewrite Hc.
    apply star_greedy; [assumption|].
    rewrite star_skip by now apply isdecimal_not_space.
    rewrite He.
    replace ds with (ds ++ []) at 1 by apply app_nil_r.
    apply star_greedy; [assumption|]. simpl.
    now rewrite firstn_all. }
  now apply search_hit.
Qed.

(** ** The summary dict *)

Lemma summary_key_eqb_eq a b : summary_key_eqb a b = true <-> a = b.
Proof. destruct a, b; simpl; split; congruence. Qed.

Lemma summary_key_eqb_refl a : summary_key_eqb a a = true.
Proof. now destruct a. Qed.

Lemma dict_get_set_same k v d : dict_get k (dict_set k v d) = Some v.
Proof.
  induction d as [|[k' v'] d IH]; simpl.
  - now rewrite summary_key_eqb_refl.
  - destruct (summary_key_eqb k k') eqn:E; simpl.
    + now rewrite summary_key_eqb_refl.
    + now rewrite E.
Qed.

Lemma dict_get_set_other k k' v d :
  k <> k' -> dict_get k (dict_set k' v d) = dict_get k d.
Proof.
  intros Hne.
  assert (Hf : summary_key_eqb k k' = false).
  { destruct (summary_key_eqb k k') eqn:E; [|reflexivity].
    apply summary_key_eqb_eq in E. contradiction. }
  induction d as [|[k2 v2] d IH]; simpl.
  - now rewrite Hf.
  - destruct (summary_key_eqb k' k2) eqn:E; simpl.
    + apply summary_key_eqb_eq in E. subst k2. now rewrite Hf.
    + now rewrite IH.
Qed.

Lemma dict_set_keys_nodup k v d :
  NoDup (map fst d) -> NoDup (map fst (dict_set k v d)).
Proof.
  induction d as [|[k' v'] d IH]; simpl; intros H.
  - constructor; [intros []|constructor].
  - inversion H as [|? ? Hn Hd]; subst.
    destruct (summary_key_eqb k k') eqn:E; simpl.
    + apply summary_key_eqb_eq in E. subst k'. now constructor.
    + constructor; [|auto]. intros Hin. apply Hn.
      clear -Hin E. induction d as [|[k2 v2] d IH]; simpl in *.
      * destruct Hin as [->|[]]. now rewrite summary_key_eqb_refl in E.
      * destruct (summary_key_eqb k k2) eqn:E2; simpl in Hin.
        -- apply summary_key_eqb_eq in E2. now subst k2.
        -- destruct Hin as [->|Hin]; auto.
Qed.

(** ** One iteration *)

Lemma summary_loop_first pats s d :
  summary_loop pats s d =
  match first_summary pats s with
  | Some (key, group1) => n <- Py.int group1 ;; Py.Ok (set_summary key n d)
  | None => Py.Ok d
  end.
Proof.
  induction pats as [|[label key] pats IH]; simpl; [reflexivity|].
  now destruct (Re.search_summary label s).
Qed.

Lemma int_ok ds n : Py.int ds = Py.Ok n -> n = Py.int_value ds.
Proof.
  unfold Py.int. destruct (_ <? _); congruence.
Qed.

Lemma summary_loop_ok pats s d d' :
  summary_loop pats s d = Py.Ok d' ->
  timestamp d' = timestamp d
  /\ (forall k, entries k d' = entries k d)
  /\ summary d' =
     match first_summary pats s with
     | Some (key, group1) => dict_set key (Py.int_value group1) (summary d)
     | None => summary d
     end.
Proof.
  rewrite summary_loop_first.
  destruct (first_summary pats s) as [[key g]|]; simpl.
  - destruct (Py.int g) as [n|e] eqn:E; simpl; [|discriminate].
    intros [= <-]. apply int_ok in E. subst n.
    repeat split.
  - intros [= <-]. auto.
Qed.

Lemma entries_append_entry s p d k :
  entries k (append_entry s p d) =
  entries k d ++
  match target s with
  | Some k' => if entries_key_eqb k k' then [p] else []
  | None => []
  end.
Proof.
  destruct s, k; simpl; now rewrite ?app_nil_r.
Qed.

(** Case analysis along the [if]/[elif] chain of the three header tests;
    [tac] closes each branch in which a header is found. *)
Ltac header_chain line tac :=
  destruct (Py.contains HDR_ADDED (Py.strip line)); [tac|];
  destruct (Py.contains HDR_REMOVED (Py.strip line)); [tac|];
  destruct (Py.contains HDR_CHANGED (Py.strip line)); [tac|].

Lemma summary_append_entry s p d : summary (append_entry s p d) = summary d.
Proof. now destruct s. Qed.

Section Step.

Variable clock : nat -> str.

(** The effect of one iteration that does not raise, in terms of the three
    per-line functions. *)
Lemma process_line_ok st line st' :
  process_line clock st line = Py.Ok st' ->
  summary (dat st') =
    match line_summary line with
    | Some (key, group1) =>
        dict_set key (Py.int_value group1) (summary (dat st))
    | None => summary (dat st)
    end
  /\ state st' =
    match header_of line with
    | Some s => s
    | None => state st
    end
  /\ forall k,
      entries k (dat st') = entries k (dat st) ++ appended (state st) k line.
Proof.
  unfold process_line, line_summary, appended, entry_path, header_of.
  destruct (Py.contains START_MARK line).
  - intros [= <-]. cbn [dat state]. repeat split.
    intros k. destruct k; cbn; now rewrite app_nil_r.
  - destruct (summary_loop summary_patterns (Py.strip line) (dat st))
      as [d|e] eqn:E; cbn [Py.bind]; [|discriminate].
    apply summary_loop_ok in E as [_ [He Hs]].
    header_chain line
      ltac:(intros [= <-]; cbn [dat state]; repeat split; [assumption|];
            intros k; now rewrite He, app_nil_r).
    destruct (Re.match_entry (Py.strip line)).
    + destruct (nth_error (Py.split1 (lit ": ") (Py.strip line)) 1)
        as [path|]; [|discriminate].
      intros [= <-]. cbn [dat state]. rewrite summary_append_entry.
      repeat split; [assumption|].
      intros k. rewrite entries_append_entry, He. reflexivity.
    + intros [= <-]. cbn [dat state]. repeat split; [assumption|].
      intros k. rewrite He. destruct (target (state st)); now rewrite app_nil_r.
Qed.

End Step.

(** ** The whole pass *)

Lemma header_of_not_initial line s : header_of line = Some s -> s <> initial.
Proof.
  unfold header_of.
  destruct (Py.contains START_MARK line); [discriminate|]. cbv zeta.
  header_chain line ltac:(intros [= <-]; discriminate).
  discriminate.
Qed.

Lemma last_header_app a b :
  last_header (a ++ b) =
  match last_header b with
  | Some s => Some s
  | None => last_header a
  end.
Proof.
  induction a as [|l a IH]; simpl.
  - now destruct (last_header b).
  - rewrite IH. now destruct (last_header b).
Qed.

Lemma last_header_not_initial lines s :
  last_header lines = Some s -> s <> initial.
Proof.
  induction lines as [|l lines IH]; simpl; [discriminate|].
  destruct (last_header lines) as [s'|].
  - intros [= <-]. now apply IH.
  - apply header_of_not_initial.
Qed.

Lemma target_not_initial s : s <> initial -> exists k, target s = Some k.
Proof. destruct s; intros H; try congruence; simpl; eauto. Qed.

Lemma entries_key_eqb_eq a b : entries_key_eqb a b = true <-> a = b.
Proof. destruct a, b; simpl; split; congruence. Qed.

Lemma appended_cases s k line :
  appended s k line = []
  \/ exists path, entry_path line = Some path
                  /\ target s = Some k
                  /\ appended s k line = [truncateString path MAX_LENGTH].
Proof.
  unfold appended. destruct (entry_path line) as [path|]; [|now left].
  destruct (target s) as [k'|]; [|now left].
  destruct (entries_key_eqb k k') eqn:E; [|now left].
  apply entries_key_eqb_eq in E. subst k'. right. eauto.
Qed.

Lemma appended_hit s k line path :
  entry_path line = Some path -> target s = Some k ->
  appended s k line = [truncateString path MAX_LENGTH].
Proof.
  unfold appended. intros -> ->.
  now replace (entries_key_eqb k k) with true by now destruct k.
Qed.

Lemma appended_miss s k k' line :
  target s = Some k -> k' <> k -> appended s k' line = [].
Proof.
  unfold appended. intros -> Hne. destruct (entry_path line); [|reflexivity].
  destruct (entries_key_eqb k' k) eqn:E; [|reflexivity].
  apply entries_key_eqb_eq in E. contradiction.
Qed.

Section Run.

Variable clock : nat -> str.

Lemma run_lines_app st a b :
  run_lines clock st (a ++ b) =
  (st1 <- run_lines clock st a ;; run_lines clock st1 b).
Proof.
  revert st. induction a as [|l a IH]; intros st; simpl; [reflexivity|].
  destruct (process_line clock st l); simpl; auto.
Qed.

Lemma run_lines_cons_ok st l rest st' :
  run_lines clock st (l :: rest) = Py.Ok st' ->
  exists st1, process_line clock st l = Py.Ok st1
              /\ run_lines clock st1 rest = Py.Ok st'.
Proof.
  simpl. destruct (process_line clock st l) as [st1|e]; simpl;
    [eauto|discriminate].
Qed.

Lemma run_lines_app_ok st a b st' :
  run_lines clock st (a ++ b) = Py.Ok st' ->
  exists st1, run_lines clock st a = Py.Ok st1
              /\ run_lines clock st1 b = Py.Ok st'.
Proof.
  rewrite run_lines_app. destruct (run_lines clock st a) as [st1|e]; simpl;
    [eauto|discriminate].
Qed.

(** After a pass the section state is the one of the last header read. *)
Lemma run_lines_state lines : forall st st',
  run_lines clock st lines = Py.Ok st' ->
  state st' =
  match last_header lines with
  | Some s => s
  | None => state st
  end.
Proof.
  induction lines as [|l lines IH]; intros st st' H.
  - simpl in H. now injection H as <-.
  - apply run_lines_cons_ok in H as [st1 [H1 H2]].
    apply process_line_ok in H1 as [_ [Hs _]].
    rewrite (IH _ _ H2). simpl.
    destruct (last_header lines); [reflexivity|]. exact Hs.
Qed.

(** A pass only appends to the three lists, and what it appends comes from
    a subsequence of the lines, in order. *)
Lemma run_lines_entries k lines : forall st st',
  run_lines clock st lines = Py.Ok st' ->
  exists src more,
    subseq src lines
    /\ Forall2 path_of_line src more
    /\ entries k (dat st') = entries k (dat st) ++ more.
Proof.
  induction lines as [|l lines IH]; intros st st' H.
  - simpl in H. injection H as <-. exists [], []. rewrite app_nil_r.
    repeat split; constructor.
  - apply run_lines_cons_ok in H as [st1 [H1 H2]].
    apply process_line_ok in H1 as [_ [_ He]].
    destruct (IH _ _ H2) as [src [more [Hsub [Hf Hm]]]].
    rewrite Hm, He, <- app_assoc.
    destruct (appended_cases (state st) k l) as [->|[path [Hp [_ ->]]]].
    + exists src, more. repeat split; [now constructor|assumption].
    + exists (l :: src), (truncateString path MAX_LENGTH :: more).
      repeat split; [now constructor|].
      constructor; [|assumption]. now exists path.
Qed.

(** The value under a summary key after a pass. *)
Lemma run_lines_summary_none key lines : forall st st',
  run_lines clock st lines = Py.Ok st' ->
  (forall l g, In l lines -> line_summary l <> Some (key, g)) ->
  dict_get key (summary (dat st')) = dict_get key (summary (dat st)).
Proof.
  induction lines as [|l lines IH]; intros st st' H Hno.
  - simpl in H. now injection H as <-.
  - apply run_lines_cons_ok in H as [st1 [H1 H2]].
    apply process_line_ok in H1 as [Hs _].
    rewrite (IH _ _ H2) by (intros; apply Hno; now right).
    rewrite Hs. destruct (line_summary l) as [[key' g]|] eqn:E;
      [|reflexivity].
    apply dict_get_set_other. intros ->. now apply (Hno l g); [left|].
Qed.

Lemma run_lines_summary_last key g pre l post st st' :
  run_lines clock st (pre ++ l :: post) = Py.Ok st' ->
  line_summary l = Some (key, g) ->
  (forall l' g', In l' post -> line_summary l' <> Some (key, g')) ->
  dict_get key (summary (dat st')) = Some (Py.int_value g).
Proof.
  intros H Hl Hno.
  apply run_lines_app_ok in H as [st1 [_ H]].
  apply run_lines_cons_ok in H as [st2 [H2 H3]].
  rewrite (run_lines_summary_none key _ _ _ H3 Hno).
  apply process_line_ok in H2 as [Hs _].
  rewrite Hs, Hl. apply dict_get_set_same.
Qed.

Lemma run_lines_summary_present key lines : forall st st',
  run_lines clock st lines = Py.Ok st' ->
  (dict_get key (summary (dat st')) <> None
   <-> dict_get key (summary (dat st)) <> None
       \/ exists l g, In l lines /\ line_summary l = Some (key, g)).
Proof.
  induction lines as [|l lines IH]; intros st st' H.
  - simpl in H. injection H as <-. split; [now left|].
    intros [H|[l [g [[] _]]]]. exact H.
  - apply run_lines_cons_ok in H as [st1 [H1 H2]].
    apply process_line_ok in H1 as [Hs _].
    rewrite (IH _ _ H2), Hs. clear IH H2 Hs.
    destruct (line_summary l) as [[key' g]|] eqn:E.
    + destruct (summary_key_eqb key key') eqn:Ek.
      * apply summary_key_eqb_eq in Ek. subst key'.
        rewrite dict_get_set_same. split; [|intros _; left; discriminate].
        intros _. right. exists l, g. split; [now left|assumption].
      * assert (Hne : key <> key').
        { intros ->. now rewrite summary_key_eqb_refl in Ek. }
        rewrite dict_get_set_other by assumption. split.
        -- intros [H|[l' [g' [Hin Hl']]]]; [now left|right].
           exists l', g'. split; [now right|assumption].
        -- intros [H|[l' [g' [[<-|Hin] Hl']]]]; [now left| |].
           ++ rewrite E in Hl'. congruence.
           ++ right. eauto.
    + split.
      * intros [H|[l' [g' [Hin Hl']]]]; [now left|right].
        exists l', g'. split; [now right|assumption].
      * intros [H|[l' [g' [[<-|Hin] Hl']]]]; [now left| |].
        -- rewrite E in Hl'. discriminate.
        -- right. eauto.
Qed.

Lemma run_lines_summary_nodup lines : forall st st',
  run_lines clock st lines = Py.Ok st' ->
  NoDup (map fst (summary (dat st))) ->
  NoDup (map fst (summary (dat st'))).
Proof.
  induction lines as [|l lines IH]; intros st st' H Hn.
  - simpl in H. now injection H as <-.
  - apply run_lines_cons_ok in H as [st1 [H1 H2]].
    apply process_line_ok in H1 as [Hs _].
    apply (IH _ _ H2). rewrite Hs.
    destruct (line_summary l) as [[key g]|]; [|assumption].
    now apply dict_set_keys_nodup.
Qed.

Lemma aideJson_some lines d :
  aideJson clock lines = Py.Ok (Some d) ->
  structure_ok lines = true
  /\ exists st, run_lines clock loop0 lines = Py.Ok st /\ d = dat st.
Proof.
  unfold aideJson. destruct (structure_ok lines); [|discriminate].
  destruct (run_lines clock loop0 lines) as [st|e]; simpl; [|discriminate].
  intros [= <-]. eauto.
Qed.

End Run.

(** ** When the loop raises *)

Lemma drop_prefix_startswith p s :
  Py.startswith p s = match Py.drop_prefix p s with
                      | Some _ => true
                      | None => false
                      end.
Proof.
  revert s. induction p as [|a p IH]; intros s; simpl.
  - now destruct s.
  - destruct s as [|b s]; [reflexivity|].
    destruct (Ascii.eqb a b); simpl; [apply IH|reflexivity].
Qed.

Lemma split1_second sep s :
  Py.contains sep s = match nth_error (Py.split1 sep s) 1 with
                      | Some _ => true
                      | None => false
                      end.
Proof.
  induction s as [|c s IH].
  - cbn [Py.contains Py.split1]. rewrite drop_prefix_startswith.
    now destruct (Py.drop_prefix sep []).
  - cbn [Py.contains Py.split1]. rewrite drop_prefix_startswith.
    destruct (Py.drop_prefix sep (c :: s)); [reflexivity|].
    rewrite IH. cbn [orb]. now destruct (Py.split1 sep s).
Qed.

Section Raises.

Variable clock : nat -> str.

(** One iteration returns exactly on the safe lines. *)
Lemma process_line_returns st line :
  (exists st', process_line clock st line = Py.Ok st')
  <-> line_safe line = true.
Proof.
  unfold process_line, line_safe, header_of.
  destruct (Py.contains START_MARK line); [split; eauto|].
  rewrite summary_loop_first. cbn [orb].
  destruct (first_summary summary_patterns (Py.strip line)) as [[key g]|].
  - unfold Py.int. rewrite Nat.ltb_antisym.
    destruct (length g <=? Py.int_max_str_digits); cbn [negb Py.bind andb].
    + header_chain line ltac:(split; eauto).
      destruct (Re.match_entry (Py.strip line)); [|split; eauto].
      rewrite split1_second. cbn [negb orb].
      destruct (nth_error (Py.split1 (lit ": ") (Py.strip line)) 1);
        split; eauto; [intros [st' X]|]; discriminate.
    + split; [intros [st' X]|]; discriminate.
  - cbn [Py.bind andb].
    header_chain line ltac:(split; eauto).
    destruct (Re.match_entry (Py.strip line)); [|split; eauto].
    rewrite split1_second. cbn [negb orb].
    destruct (nth_error (Py.split1 (lit ": ") (Py.strip line)) 1);
      split; eauto; [intros [st' X]|]; discriminate.
Qed.

Lemma run_lines_returns lines : forall st,
  (exists st', run_lines clock st lines = Py.Ok st')
  <-> forallb line_safe lines = true.
Proof.
  induction lines as [|l lines IH]; intros st; simpl.
  - split; eauto.
  - rewrite andb_true_iff, <- (process_line_returns st l). split.
    + intros [st' H].
      destruct (process_line clock st l) as [st1|e] eqn:E; [|discriminate].
      split; [eauto|]. apply (IH st1). eauto.
    + intros [[st1 E] H]. rewrite E. simpl. now apply IH.
Qed.

(** [aideJson] returns a record exactly on the structurally valid reports
    all of whose lines are safe; on the other structurally valid reports
    it raises. *)
Lemma aideJson_returns_iff lines :
  (exists d, aideJson clock lines = Py.Ok (Some d))
  <-> structure_ok lines = true /\ forallb line_safe lines = true.
Proof.
  rewrite <- (run_lines_returns lines loop0). unfold aideJson. split.
  - intros [d H]. destruct (structure_ok lines); [|discriminate].
    split; [reflexivity|].
    destruct (run_lines clock loop0 lines) as [st|e]; [eauto|discriminate].
  - intros [-> [st ->]]. simpl. eauto.
Qed.

End Raises.

(** ** Summary count lines *)

Lemma absent_summary_text a label w ds :
  absent a (label ++ lit ":") = true ->
  Py.isspace a = false -> Py.isdecimal a = false ->
  forallb Py.isspace w = true -> forallb Py.isdecimal ds = true ->
  absent a (label ++ lit ":" ++ w ++ ds) = true.
Proof.
  intros Hl Hs Hd Hw Hds.
  rewrite app_assoc, absent_app, Hl, absent_app.
  now rewrite absent_spaces, absent_decimals.
Qed.

Lemma match_entry_head c s :
  Py.isspace c = false -> Re.one_of (lit "fd") c = false ->
  Re.match_entry (c :: s) = false.
Proof.
  intros Hs Hc. unfold Re.match_entry, Re.entry_regex. cbn [Re.run].
  rewrite star_skip by assumption. now rewrite Hc.
Qed.

Lemma int_short ds :
  length ds <= Py.int_max_str_digits -> Py.int ds = Py.Ok (Py.int_value ds).
Proof.
  intros H. unfold Py.int.
  destruct (Py.int_max_str_digits <? length ds) eqn:E; [|reflexivity].
  apply Nat.ltb_lt in E. lia.
Qed.

Section SummaryLine.

Variables (w ds : str).
Hypothesis Hw0 : w <> [].
Hypothesis Hw : forallb Py.isspace w = true.
Hypothesis Hd0 : ds <> [].
Hypothesis Hd : forallb Py.isdecimal ds = true.

Lemma text_absent a label :
  absent a (label ++ lit ":") = true ->
  Py.isspace a = false -> Py.isdecimal a = false ->
  absent a (summary_text label w ds) = true.
Proof. intros. now apply absent_summary_text. Qed.

Lemma text_search a l :
  Py.isspace a = false ->
  Re.search_summary (a :: l) (summary_text (a :: l) w ds) = Some ds.
Proof. intros. now apply search_summary_exact. Qed.

Lemma text_search_other a label label' :
  hd_error label = Some a ->
  absent a (label' ++ lit ":") = true ->
  Py.isspace a = false -> Py.isdecimal a = false ->
  Re.search_summary label (summary_text label' w ds) = None.
Proof.
  destruct label as [|c l]; [discriminate|]. intros [= ->] H1 H2 H3.
  apply search_summary_absent. now apply text_absent.
Qed.

Lemma first_summary_text label key :
  In (label, key) summary_patterns ->
  first_summary summary_patterns (summary_text label w ds) = Some (key, ds).
Proof.
  unfold summary_patterns.
  intros [E|[E|[E|[E|[]]]]]; injection E as <- <-; cbn [first_summary].
  - change (lit "Total number of entries")
      with ("T"%char :: lit "otal number of entries").
    now rewrite text_search.
  - rewrite (text_search_other "T"%char) by reflexivity.
    change (lit "Added entries") with ("A"%char :: lit "dded entries").
    now rewrite text_search.
  - rewrite (text_search_other "T"%char) by reflexivity.
    rewrite (text_search_other "A"%char) by reflexivity.
    change (lit "Removed entries") with ("R"%char :: lit "emoved entries").
    now rewrite text_search.
  - rewrite (text_search_other "T"%char) by reflexivity.
    rewrite (text_search_other "A"%char) by reflexivity.
    rewrite (text_search_other "R"%char) by reflexivity.
    change (lit "Changed entries") with ("C"%char :: lit "hanged entries").
    now rewrite text_search.
Qed.

Lemma header_of_text line label key :
  In (label, key) summary_patterns ->
  Py.strip line = summary_text label w ds ->
  Py.contains START_MARK line = false
  /\ Py.contains HDR_ADDED (summary_text label w ds)
     = match key with added_summary => true | _ => false end
  /\ Py.contains HDR_REMOVED (summary_text label w ds)
     = match key with removed_summary => true | _ => false end
  /\ Py.contains HDR_CHANGED (summary_text label w ds)
     = match key with changed_summary => true | _ => false end
  /\ (key = total_entries ->
      Re.match_entry (summary_text label w ds) = false).
Proof.
  unfold summary_patterns.
  assert (Hhdr : forall l, summary_text l w ds = (l ++ lit ":") ++ (w ++ ds)).
  { intros l. unfold summary_text. now rewrite <- app_assoc. }
  intros [E|[E|[E|[E|[]]]]]; injection E as <- <-; intros Hs;
    (split;
     [apply (contains_absent "S"%char); apply absent_of_strip;
      [reflexivity|rewrite Hs; now apply text_absent]|]);
    (split; [|split; [|split]]); try discriminate;
    try (rewrite Hhdr; apply contains_prefix);
    try (apply (contains_absent "A"%char); now apply text_absent);
    try (apply (contains_absent "R"%char); now apply text_absent);
    try (apply (contains_absent "C"%char); now apply text_absent).
  intros _. now apply match_entry_head.
Qed.

End SummaryLine.

Section SummaryStep.

Variable clock : nat -> str.

(** The iteration on a line whose trimmed text is a summary count. *)
Lemma process_summary_line st line label key w ds :
  In (label, key) summary_patterns ->
  Py.strip line = summary_text label w ds ->
  w <> [] -> forallb Py.isspace w = true ->
  ds <> [] -> forallb Py.isdecimal ds = true ->
  length ds <= Py.int_max_str_digits ->
  exists st',
    process_line clock st line = Py.Ok st'
    /\ summary (dat st') = dict_set key (Py.int_value ds) (summary (dat st))
    /\ (forall k, entries k (dat st') = entries k (dat st))
    /\ state st' = state_after_summary key (state st).
Proof.
  intros Hin Hs Hw0 Hw Hd0 Hd Hlen.
  destruct (header_of_text w ds Hw Hd line label key Hin Hs)
    as [Hstart [Ha [Hr [Hc Hm]]]].
  unfold process_line. rewrite Hstart, Hs, summary_loop_first.
  rewrite (first_summary_text w ds Hw0 Hw Hd0 Hd label key Hin).
  rewrite (int_short ds Hlen). cbn [Py.bind].
  rewrite Ha, Hr, Hc.
  destruct key; cbn [state_after_summary];
    [rewrite (Hm eq_refl)| | |];
    (eexists; split; [reflexivity|]; cbn [dat state]; repeat split).
Qed.

End SummaryStep.

(** * The claims *)

(** ** Truncation *)

Lemma slice_to_nonneg k s :
  (0 <= k)%Z -> Py.slice_to k s = firstn (Z.to_nat k) s.
Proof.
  intros H. unfold Py.slice_to.
  destruct (k <? 0)%Z eqn:E; [|reflexivity].
  apply Z.ltb_lt in E. lia.
Qed.

Lemma truncateString_short value max_length :
  (Z.of_nat (length value) <= max_length)%Z ->
  truncateString value max_length = value.
Proof.
  intros H. unfold truncateString.
  destruct (Z.of_nat (length value) >? max_length)%Z eqn:E; [|reflexivity].
  apply Z.gtb_lt in E. lia.
Qed.

Lemma truncateString_long value max_length :
  (3 <= max_length)%Z ->
  (Z.of_nat (length value) > max_length)%Z ->
  truncateString value max_length
    = firstn (Z.to_nat (max_length - 3)) value ++ lit "..."
  /\ Z.of_nat (length (truncateString value max_length)) = max_length.
Proof.
  intros H3 H. unfold truncateString.
  destruct (Z.of_nat (length value) >? max_length)%Z eqn:E.
  - rewrite slice_to_nonneg by lia. split; [reflexivity|].
    rewrite length_app, firstn_length_le by lia. simpl. lia.
  - rewrite Z.gtb_ltb in E. apply Z.ltb_ge in E. lia.
Qed.

(** C4, with the bound the code needs: for every [max_length] of at least
    3 (the default 100 among them), [truncateString] is the identity on
    strings of length at most [max_length]; a longer string becomes its
    first [max_length - 3] characters followed by the three dots, of length
    exactly [max_length]; and applying it twice equals applying it once. *)
Theorem truncateString_spec (value : str) (max_length : Z) :
  (3 <= max_length)%Z ->
  ((Z.of_nat (length value) <= max_length)%Z ->
   truncateString value max_length = value)
  /\ ((Z.of_nat (length value) > max_length)%Z ->
      truncateString value max_length
        = firstn (Z.to_nat (max_length - 3)) value ++ lit "..."
      /\ Z.of_nat (length (truncateString value max_length)) = max_length)
  /\ truncateString (truncateString value max_length) max_length
     = truncateString value max_length.
Proof.
  intros H3. split; [apply truncateString_short|].
  split; [now apply truncateString_long|].
  destruct (Z_le_gt_dec (Z.of_nat (length value)) max_length) as [Hle|Hgt].
  - rewrite (truncateString_short value max_length Hle).
    exact (truncateString_short value max_length Hle).
  - apply truncateString_short.
    destruct (truncateString_long value max_length H3 Hgt) as [_ ->]. lia.
Qed.

Lemma truncateString_spec_default :
  let value := repeat "a"%char 130 in
  (3 <= MAX_LENGTH)%Z
  /\ (Z.of_nat (length value) > MAX_LENGTH)%Z
  /\ truncateString value MAX_LENGTH = repeat "a"%char 97 ++ lit "..."
  /\ Z.of_nat (length (truncateString value MAX_LENGTH)) = MAX_LENGTH.
Proof.
  assert (H3 : (3 <= MAX_LENGTH)%Z) by (unfold MAX_LENGTH; lia).
  assert (Hl : (Z.of_nat (length (repeat "a"%char 130)) > MAX_LENGTH)%Z)
    by (vm_compute; reflexivity).
  pose proof (truncateString_spec (repeat "a"%char 130) MAX_LENGTH H3)
    as [_ [Hlong _]].
  destruct (Hlong Hl) as [He Hn].
  intros value. subst value.
  split; [exact H3|]. split; [exact Hl|]. split; [|exact Hn].
  rewrite He. reflexivity.
Defined.

(** C4 as stated fails below 3: with [max_length = 2] the slice bound is
    [-1], the result is longer than the input, and a second application
    changes it again. *)
Lemma truncateString_limit_2 :
  let value := lit "abcdef" in
  (Z.of_nat (length value) > 2)%Z
  /\ truncateString value 2 = lit "abcde..."
  /\ Z.of_nat (length (truncateString value 2)) <> 2%Z
  /\ truncateString (truncateString value 2) 2 <> truncateString value 2.
Proof.
  repeat split; vm_compute; congruence.
Qed.

(** ** Structural validation *)

(** C3: an empty input, a first line that does not start with
    [Start timestamp:], a last line that does not start with
    [End timestamp:], fewer than two lines, or a second line with neither
    banner: [aideJson] returns [None], so no record and no exception. *)
Theorem aideJson_structural_gate (clock : nat -> str) (lines : list str) :
  lines = []
  \/ (exists line0, nth_error lines 0 = Some line0
                    /\ Py.startswith START_MARK line0 = false)
  \/ Py.startswith END_MARK (last_line lines) = false
  \/ length lines < 2
  \/ (exists line1, nth_error lines 1 = Some line1
                    /\ Py.contains BANNER_DIFF line1 = false
                    /\ Py.contains BANNER_VERSION line1 = false) ->
  aideJson clock lines = Py.Ok None.
Proof.
  intros H. unfold aideJson.
  replace (structure_ok lines) with false; [reflexivity|].
  symmetry. unfold structure_ok.
  destruct lines as [|line0 rest]; [reflexivity|].
  destruct H as [H|[[l0 [E H]]|[H|[H|[l1 [E [H1 H2]]]]]]].
  - discriminate.
  - simpl in E. injection E as ->. now rewrite H.
  - rewrite H. now destruct (Py.startswith START_MARK line0).
  - destruct rest; [|simpl in H; lia].
    destruct (Py.startswith START_MARK line0); [|reflexivity].
    now destruct (Py.startswith END_MARK (last_line [line0])).
  - rewrite E, H1, H2.
    destruct (Py.startswith START_MARK line0); [|reflexivity].
    now destruct (Py.startswith END_MARK (last_line (line0 :: rest))).
Qed.

Lemma aideJson_structural_gate_witness :
  aideJson clock0 [line_start; nl "AIDE found no differences"; line_end]
  = Py.Ok None.
Proof.
  apply aideJson_structural_gate.
  right. right. right. right.
  exists (nl "AIDE found no differences"). repeat split; reflexivity.
Defined.

(** ** Exceptions *)

(** C1 fails on the code: [report_no_space] passes the four structural
    checks, its entry line matches the entry pattern, whose [:\s*\/] asks
    for no space after the colon, and [split(": ", 1)[1]] then raises
    IndexError. *)
Theorem aideJson_raises_IndexError :
  report_no_space <> []
  /\ (exists line0,
        nth_error report_no_space 0 = Some line0
        /\ Py.startswith START_MARK line0 = true)
  /\ Py.startswith END_MARK (last_line report_no_space) = true
  /\ (exists line1,
        nth_error report_no_space 1 = Some line1
        /\ Py.contains BANNER_DIFF line1 = true)
  /\ structure_ok report_no_space = true
  /\ aideJson clock0 report_no_space = Py.Raise Py.IndexError.
Proof.
  split; [discriminate|].
  split; [eexists; split; reflexivity|].
  split; [reflexivity|].
  split; [eexists; split; reflexivity|].
  split; vm_compute; reflexivity.
Qed.

(** A second way out of the loop: a count of more than 4300 digits. *)
Lemma aideJson_raises_ValueError :
  structure_ok report_long_count = true
  /\ aideJson clock0 report_long_count = Py.Raise Py.ValueError.
Proof. split; vm_compute; reflexivity. Qed.

(** Scenario A. *)
Lemma aideJson_scenario_a :
  exists d, aideJson clock0 report_scenario_a = Py.Ok (Some d)
            /\ added_entries d = [lit "/etc/passwd"]
            /\ removed_entries d = []
            /\ changed_entries d = [].
Proof. eexists. vm_compute. repeat split. Qed.

(** ** Sections and entries *)

(** C5: an entry line read after a section header puts its truncated path
    in exactly one of the three lists: the one of the section entered by
    the last header before it, which is the loop's [state] at that point.
    The list is picked from the state alone ([target]); the other two
    lists are left as they were, and the list of the final record extends
    the one just appended to. *)
Theorem entry_goes_to_one_sequence
    (clock : nat -> str) (pre : list str) (e : str) (post : list str)
    (d : data) (sec : section_state) (path : str) :
  aideJson clock (pre ++ e :: post) = Py.Ok (Some d) ->
  last_header pre = Some sec ->
  entry_path e = Some path ->
  exists k st st',
    target sec = Some k
    /\ run_lines clock loop0 pre = Py.Ok st
    /\ state st = sec
    /\ process_line clock st e = Py.Ok st'
    /\ entries k (dat st')
       = entries k (dat st) ++ [truncateString path MAX_LENGTH]
    /\ (forall k', k' <> k -> entries k' (dat st') = entries k' (dat st))
    /\ exists more, entries k d = entries k (dat st') ++ more.
Proof.
  intros H Hsec Hpath.
  apply aideJson_some in H as [_ [st_end [H ->]]].
  apply run_lines_app_ok in H as [st [Hpre H]].
  apply run_lines_cons_ok in H as [st' [He Hpost]].
  destruct (target_not_initial sec (last_header_not_initial _ _ Hsec))
    as [k Hk].
  pose proof (run_lines_state clock pre _ _ Hpre) as Hst.
  rewrite Hsec in Hst.
  pose proof (process_line_ok clock _ _ _ He) as [_ [_ Hent]].
  exists k, st, st'. repeat split; try assumption.
  - rewrite Hent, Hst. now rewrite (appended_hit sec k e path).
  - intros k' Hne. rewrite Hent, Hst.
    rewrite (appended_miss sec k k' e Hk Hne). apply app_nil_r.
  - destruct (run_lines_entries clock k post _ _ Hpost)
      as [src [more [_ [_ Hm]]]]. now exists more.
Qed.

Lemma entry_goes_to_one_sequence_witness :
  exists k st st',
    target removed = Some k
    /\ run_lines clock0 loop0 (firstn 10 report_sections) = Py.Ok st
    /\ state st = removed
    /\ process_line clock0 st (nl "f----------------: /etc/old.conf")
       = Py.Ok st'
    /\ entries k (dat st')
       = entries k (dat st) ++ [truncateString (lit "/etc/old.conf") MAX_LENGTH]
    /\ (forall k', k' <> k -> entries k' (dat st') = entries k' (dat st))
    /\ exists more,
        entries k (record_of report_sections) = entries k (dat st') ++ more.
Proof.
  apply (entry_goes_to_one_sequence clock0 (firstn 10 report_sections)
           (nl "f----------------: /etc/old.conf")
           (skipn 11 report_sections)
           (record_of report_sections) removed (lit "/etc/old.conf"));
    vm_compute; reflexivity.
Defined.

(** C9: once a line has been taken for a section header, the state is
    never [initial] again: before and after every later line [e], and at
    the end of the pass, the state is not [initial]; before [e] it is the
    section of the last header read so far, and an entry line [e],
    wherever it stands, is appended to the list of that section and is in
    that list of the final record. *)
Theorem section_state_never_returns_to_initial
    (clock : nat -> str) (pre : list str) (h : str) (seen : list str)
    (e : str) (later : list str) (d : data) :
  aideJson clock (pre ++ h :: seen ++ e :: later) = Py.Ok (Some d) ->
  header_of h <> None ->
  exists sec k st st' st_end,
    last_header (pre ++ h :: seen) = Some sec
    /\ target sec = Some k
    /\ run_lines clock loop0 (pre ++ h :: seen) = Py.Ok st
    /\ state st = sec
    /\ state st <> initial
    /\ process_line clock st e = Py.Ok st'
    /\ state st' <> initial
    /\ run_lines clock st' later = Py.Ok st_end
    /\ dat st_end = d
    /\ state st_end <> initial
    /\ forall path,
        entry_path e = Some path ->
        entries k (dat st')
        = entries k (dat st) ++ [truncateString path MAX_LENGTH]
        /\ In (truncateString path MAX_LENGTH) (entries k d).
Proof.
  intros H Hh.
  apply aideJson_some in H as [_ [st_end [H ->]]].
  replace (pre ++ h :: seen ++ e :: later)
    with ((pre ++ h :: seen) ++ e :: later) in H
    by now rewrite <- app_assoc.
  apply run_lines_app_ok in H as [st [Hpre H]].
  apply run_lines_cons_ok in H as [st' [He Hpost]].
  assert (Hlast : exists sec, last_header (pre ++ h :: seen) = Some sec).
  { rewrite last_header_app. simpl.
    destruct (last_header seen) as [s|]; [now exists s|].
    destruct (header_of h) as [s|]; [now exists s|congruence]. }
  destruct Hlast as [sec Hsec].
  pose proof (last_header_not_initial _ _ Hsec) as Hni.
  destruct (target_not_initial sec Hni) as [k Hk].
  pose proof (run_lines_state clock _ _ _ Hpre) as Hst.
  rewrite Hsec in Hst.
  pose proof (process_line_ok clock _ _ _ He) as [_ [Hst' Hent]].
  assert (Hni' : state st' <> initial).
  { rewrite Hst'. destruct (header_of e) as [s|] eqn:E.
    - now apply header_of_not_initial in E.
    - now rewrite Hst. }
  exists sec, k, st, st', st_end.
  repeat match goal with |- _ /\ _ => split end; try assumption;
    try reflexivity.
  - now rewrite Hst.
  - rewrite (run_lines_state clock _ _ _ Hpost).
    destruct (last_header later) as [s|] eqn:E; [|assumption].
    now apply last_header_not_initial in E.
  - intros path Hpath. split.
    + rewrite Hent, Hst. now rewrite (appended_hit sec k e path).
    + destruct (run_lines_entries clock k later _ _ Hpost)
        as [src [more [_ [_ Hm]]]].
      rewrite Hm, Hent, Hst, (appended_hit sec k e path) by assumption.
      apply in_or_app. left. apply in_or_app. right. now left.
Qed.

Lemma section_state_never_returns_to_initial_witness :
  exists sec k st st' st_end,
    last_header (firstn 15 report_sections) = Some sec
    /\ target sec = Some k
    /\ run_lines clock0 loop0 (firstn 15 report_sections) = Py.Ok st
    /\ state st = sec
    /\ state st <> initial
    /\ process_line clock0 st (nl "f   ...    .C... : /etc/fstab") = Py.Ok st'
    /\ state st' <> initial
    /\ run_lines clock0 st' [line_end] = Py.Ok st_end
    /\ dat st_end = record_of report_sections
    /\ state st_end <> initial
    /\ forall path,
        entry_path (nl "f   ...    .C... : /etc/fstab") = Some path ->
        entries k (dat st')
        = entries k (dat st) ++ [truncateString path MAX_LENGTH]
        /\ In (truncateString path MAX_LENGTH)
              (entries k (record_of report_sections)).
Proof.
  apply (section_state_never_returns_to_initial clock0
           (firstn 4 report_sections) (count_line "Added entries" "1")
           (firstn 10 (skipn 5 report_sections))
           (nl "f   ...    .C... : /etc/fstab")
           [line_end] (record_of report_sections)).
  - vm_compute. reflexivity.
  - vm_compute. discriminate.
Defined.

(** C6: each of the three lists of the returned record is, entry by
    entry, the truncated path of a subsequence of the input lines: the
    paths stand in the order of their source lines. *)
Theorem entries_in_input_order
    (clock : nat -> str) (lines : list str) (d : data) :
  aideJson clock lines = Py.Ok (Some d) ->
  forall k, exists src,
    subseq src lines /\ Forall2 path_of_line src (entries k d).
Proof.
  intros H k.
  apply aideJson_some in H as [_ [st [H ->]]].
  destruct (run_lines_entries clock k lines _ _ H)
    as [src [more [Hsub [Hf Hm]]]].
  exists src. split; [assumption|]. rewrite Hm. now destruct k.
Qed.

Lemma entries_in_input_order_witness :
  exists src,
    subseq src report_sections
    /\ Forall2 path_of_line src
         (entries k_changed (record_of report_sections)).
Proof.
  apply (entries_in_input_order clock0 report_sections).
  vm_compute. reflexivity.
Defined.

(** ** Summary counts *)

Lemma dict_get_absent key d :
  ~ In key (map fst d) -> dict_get key d = None.
Proof.
  induction d as [|[k v] d IH]; simpl; intros H; [reflexivity|].
  destruct (summary_key_eqb key k) eqn:E.
  - apply summary_key_eqb_eq in E. subst k. exfalso. apply H. now left.
  - apply IH. intros Hin. apply H. now right.
Qed.

Lemma key_name_eqb a b :
  Py.eqb (key_name a) (key_name b) = summary_key_eqb a b.
Proof. destruct a, b; reflexivity. Qed.

Lemma json_lookup_summary key d :
  NoDup (map fst d) ->
  json_lookup (key_name key)
    (map (fun kv => (key_name (fst kv), JInt (snd kv))) d)
  = match dict_get key d with
    | Some n => [JInt n]
    | None => []
    end.
Proof.
  unfold json_lookup.
  induction d as [|[k v] d IH]; simpl; intros H; [reflexivity|].
  inversion H as [|? ? Hn Hd]; subst.
  rewrite key_name_eqb. destruct (summary_key_eqb key k) eqn:E; simpl.
  - apply summary_key_eqb_eq in E. subst k.
    rewrite (IH Hd), (dict_get_absent _ _ Hn). reflexivity.
  - apply (IH Hd).
Qed.

Lemma json_lookup_members key d :
  NoDup (map fst (summary d)) ->
  json_lookup (key_name key) (json_members d)
  = match dict_get key (summary d) with
    | Some n => [JInt n]
    | None => []
    end.
Proof.
  intros H. rewrite <- (json_lookup_summary key (summary d) H).
  unfold json_lookup, json_members. rewrite filter_app, map_app.
  now destruct key.
Qed.

Lemma first_summary_search pats s key g :
  first_summary pats s = Some (key, g) ->
  exists label, In (label, key) pats /\ Re.search_summary label s = Some g.
Proof.
  induction pats as [|[label k] pats IH]; simpl; [discriminate|].
  destruct (Re.search_summary label s) as [g'|] eqn:E.
  - intros [= <- <-]. exists label. split; [now left|assumption].
  - intros H. destruct (IH H) as [label' [Hin Hs]].
    exists label'. split; [now right|assumption].
Qed.

Lemma line_summary_search line key g :
  line_summary line = Some (key, g) ->
  exists label,
    In (label, key) summary_patterns
    /\ Re.search_summary label (Py.strip line) = Some g.
Proof.
  unfold line_summary. destruct (Py.contains START_MARK line);
    [discriminate|]. apply first_summary_search.
Qed.

(** The label loop read as a condition on the line: it stops at the first
    label of the table whose pattern is found. *)
Lemma first_summary_found pats s key g :
  first_summary pats s = Some (key, g) ->
  exists before label after,
    pats = before ++ (label, key) :: after
    /\ (forall label' key',
           In (label', key') before -> Re.search_summary label' s = None)
    /\ Re.search_summary label s = Some g.
Proof.
  induction pats as [|[label k] pats IH]; simpl; [discriminate|].
  destruct (Re.search_summary label s) as [g'|] eqn:E.
  - intros [= <- <-]. exists [], label, pats.
    split; [reflexivity|]. split; [intros ? ? []|assumption].
  - intros H. destruct (IH H) as [before [label' [after [-> [Hb Hs]]]]].
    exists ((label, k) :: before), label', after.
    split; [reflexivity|]. split; [|assumption].
    intros l' k' [[= <- <-]|Hin]; [assumption|now apply (Hb l' k')].
Qed.

Lemma first_summary_at before label key after s g :
  (forall label' key',
      In (label', key') before -> Re.search_summary label' s = None) ->
  Re.search_summary label s = Some g ->
  first_summary (before ++ (label, key) :: after) s = Some (key, g).
Proof.
  intros Hb Hs. induction before as [|[l0 k0] before IH]; simpl.
  - now rewrite Hs.
  - rewrite (Hb l0 k0) by now left.
    apply IH. intros l' k' Hin. apply (Hb l' k'). now right.
Qed.

(** When a line records a count under [key]: it is not skipped for
    carrying [Start timestamp:], the pattern of the label of [key] is
    found in its trimmed text, and the pattern of no label placed before
    it in the table is. *)
Lemma line_summary_iff line key g :
  line_summary line = Some (key, g)
  <-> Py.contains START_MARK line = false
      /\ exists before label after,
           summary_patterns = before ++ (label, key) :: after
           /\ (forall label' key',
                  In (label', key') before ->
                  Re.search_summary label' (Py.strip line) = None)
           /\ Re.search_summary label (Py.strip line) = Some g.
Proof.
  unfold line_summary. split.
  - destruct (Py.contains START_MARK line); [discriminate|].
    intros H. split; [reflexivity|]. now apply first_summary_found.
  - intros [-> [before [label [after [-> [Hb Hs]]]]]].
    now apply first_summary_at.
Qed.

(** C8, as the code has it: in a returned record a summary key is present
    exactly when some line of the report recorded it, that is, a line
    without [Start timestamp:] in whose trimmed text the pattern of the
    key's label is found and the pattern of no label placed before it in
    the table (Total, Added, Removed, Changed) is; the JSON object has one
    integer member for a present key and no member at all, so no [null],
    for an absent one. *)
Theorem summary_field_present_iff_matched
    (clock : nat -> str) (lines : list str) (d : data) (key : summary_key) :
  aideJson clock lines = Py.Ok (Some d) ->
  (dict_get key (summary d) <> None
   <-> exists line before label after group1,
         In line lines
         /\ Py.contains START_MARK line = false
         /\ summary_patterns = before ++ (label, key) :: after
         /\ (forall label' key',
                In (label', key') before ->
                Re.search_summary label' (Py.strip line) = None)
         /\ Re.search_summary label (Py.strip line) = Some group1)
  /\ json_lookup (key_name key) (json_members d)
     = match dict_get key (summary d) with
       | Some n => [JInt n]
       | None => []
       end.
Proof.
  intros H. apply aideJson_some in H as [_ [st [H ->]]]. split.
  - rewrite (run_lines_summary_present clock key lines _ _ H). simpl. split.
    + intros [Hn|[line [g [Hin Hl]]]]; [congruence|].
      apply line_summary_iff in Hl
        as [Hc [before [label [after [Hp [Hb Hs]]]]]].
      exists line, before, label, after, g. auto.
    + intros [line [before [label [after [g [Hin [Hc [Hp [Hb Hs]]]]]]]]].
      right. exists line, g. split; [assumption|].
      apply line_summary_iff. split; [assumption|].
      exists before, label, after. auto.
  - apply json_lookup_members.
    apply (run_lines_summary_nodup clock lines _ _ H). constructor.
Qed.

Lemma summary_field_present_iff_matched_witness :
  (dict_get added_summary (summary (record_of report_summary_in_section))
     <> None
   <-> exists line before label after group1,
         In line report_summary_in_section
         /\ Py.contains START_MARK line = false
         /\ summary_patterns = before ++ (label, added_summary) :: after
         /\ (forall label' key',
                In (label', key') before ->
                Re.search_summary label' (Py.strip line) = None)
         /\ Re.search_summary label (Py.strip line) = Some group1)
  /\ json_lookup (key_name added_summary)
       (json_members (record_of report_summary_in_section))
     = match dict_get added_summary
               (summary (record_of report_summary_in_section)) with
       | Some n => [JInt n]
       | None => []
       end.
Proof.
  apply (summary_field_present_iff_matched clock0). vm_compute. reflexivity.
Defined.

(** C8 as stated fails: [report_two_labels] is structurally valid and the
    pattern of [Changed entries] is found on its third line, with the
    count 3, yet the returned record has no [changed_summary] and its JSON
    object no such member: the loop stops at [Total number of entries],
    the first label of the table, found on the same line. *)
Lemma summary_pattern_found_field_absent :
  structure_ok report_two_labels = true
  /\ In line_two_labels report_two_labels
  /\ In (lit "Changed entries", changed_summary) summary_patterns
  /\ Re.search_summary (lit "Changed entries") (Py.strip line_two_labels)
     = Some (lit "3")
  /\ exists d,
      aideJson clock0 report_two_labels = Py.Ok (Some d)
      /\ dict_get changed_summary (summary d) = None
      /\ dict_get total_entries (summary d) = Some 9%Z
      /\ json_lookup (key_name changed_summary) (json_members d) = [].
Proof.
  split; [reflexivity|]. split; [right; right; now left|].
  split; [do 3 right; now left|]. split; [vm_compute; reflexivity|].
  eexists. split; [vm_compute; reflexivity|]. repeat split.
Qed.




Lemma line_summary_total_42 l :
  Py.strip l = lit "Total number of entries: 42" ->
  line_summary l = Some (total_entries, lit "42").
Proof.
  intros H. unfold line_summary.
  replace (Py.contains START_MARK l) with false.
  - rewrite H. vm_compute. reflexivity.
  - symmetry. apply (contains_absent "S"%char).
    apply absent_of_strip; [reflexivity|]. rewrite H. reflexivity.
Qed.

(** C7, with the condition the code needs: in a returned record
    [total_entries] is 42 when the report has a line whose trimmed text is
    [Total number of entries: 42] and no later line records a total count;
    nothing is asked of the lines before it, and in whatever loop state
    the line is read it records 42 and leaves the section state as it
    was. *)
Theorem total_entries_42_when_last
    (clock : nat -> str) (pre : list str) (l : str) (post : list str)
    (d : data) :
  aideJson clock (pre ++ l :: post) = Py.Ok (Some d) ->
  Py.strip l = lit "Total number of entries: 42" ->
  (forall l' g', In l' post -> line_summary l' <> Some (total_entries, g')) ->
  dict_get total_entries (summary d) = Some 42%Z
  /\ forall st, exists st',
      process_line clock st l = Py.Ok st'
      /\ dict_get total_entries (summary (dat st')) = Some 42%Z
      /\ state st' = state st.
Proof.
  intros H Hl Hno. split.
  - apply aideJson_some in H as [_ [st [H ->]]].
    apply line_summary_total_42 in Hl.
    exact (run_lines_summary_last clock total_entries (lit "42") pre l post
             _ _ H Hl Hno).
  - intros st.
    destruct (process_summary_line clock st l
                (lit "Total number of entries") total_entries
                (lit " ") (lit "42"))
      as [st' [Hp [Hsum [_ Hst]]]];
      [now left|exact Hl|discriminate|reflexivity|discriminate|reflexivity
      |vm_compute; lia|].
    exists st'. split; [exact Hp|]. split; [|exact Hst].
    rewrite Hsum. apply dict_get_set_same.
Qed.

Lemma total_entries_42_when_last_witness :
  dict_get total_entries (summary (record_of report_sections)) = Some 42%Z
  /\ forall st, exists st',
      process_line clock0 st (nl "Total number of entries: 42") = Py.Ok st'
      /\ dict_get total_entries (summary (dat st')) = Some 42%Z
      /\ state st' = state st.
Proof.
  apply (total_entries_42_when_last clock0 (firstn 14 report_sections)
           (nl "Total number of entries: 42")
           (skipn 15 report_sections)).
  - vm_compute. reflexivity.
  - vm_compute. reflexivity.
  - intros l' g' [<-|[<-|[]]]; vm_compute; discriminate.
Defined.

(** C7 as stated fails: [report_two_totals] is structurally valid and has
    the line [Total number of entries: 42], and its record holds 7. *)
Lemma total_entries_overwritten :
  structure_ok report_two_totals = true
  /\ In (nl "Total number of entries: 42") report_two_totals
  /\ exists d, aideJson clock0 report_two_totals = Py.Ok (Some d)
               /\ dict_get total_entries (summary d) = Some 7%Z
               /\ dict_get total_entries (summary d) <> Some 42%Z.
Proof.
  split; [reflexivity|]. split; [right; right; now left|].
  eexists. split; [vm_compute; reflexivity|]. split; [reflexivity|].
  discriminate.
Qed.


(** ** Summary lines and the section state *)




(** * Further properties of the parser *)

(** ** The clock and the timestamp *)

Lemma timestamp_append_entry s p d :
  timestamp (append_entry s p d) = timestamp d.
Proof. now destruct s. Qed.

Section Clock.

Variable clock : nat -> str.

Lemma process_line_clock st line st' :
  process_line clock st line = Py.Ok st' ->
  if Py.contains START_MARK line
  then ticks st' = S (ticks st)
       /\ timestamp (dat st') = Some (clock (ticks st))
  else ticks st' = ticks st
       /\ timestamp (dat st') = timestamp (dat st).
Proof.
  unfold process_line.
  destruct (Py.contains START_MARK line).
  - intros [= <-]. now split.
  - destruct (summary_loop summary_patterns (Py.strip line) (dat st))
      as [d|e] eqn:E; cbn [Py.bind]; [|discriminate].
    apply summary_loop_ok in E as [Ht _].
    header_chain line ltac:(intros [= <-]; now split).
    destruct (Re.match_entry (Py.strip line)).
    + destruct (nth_error (Py.split1 (lit ": ") (Py.strip line)) 1)
        as [path|]; [|discriminate].
      intros [= <-]. cbn [dat ticks]. now rewrite timestamp_append_entry.
    + intros [= <-]. now split.
Qed.

Lemma run_lines_clock lines : forall st st',
  run_lines clock st lines = Py.Ok st' ->
  ticks st' = ticks st + count_starts lines
  /\ timestamp (dat st') =
     match count_starts lines with
     | 0 => timestamp (dat st)
     | S n => Some (clock (ticks st + n))
     end.
Proof.
  unfold count_starts.
  induction lines as [|l lines IH]; intros st st' H.
  - simpl in H. injection H as <-. simpl. split; [lia|reflexivity].
  - apply run_lines_cons_ok in H as [st1 [H1 H2]].
    apply process_line_clock in H1. destruct (IH _ _ H2) as [Ht Hs].
    cbn [filter]. destruct (Py.contains START_MARK l);
      destruct H1 as [H1t H1s]; cbn [length].
    + split; [lia|]. rewrite Hs, H1t, H1s.
      destruct (length (filter (Py.contains START_MARK) lines)) as [|n].
      * f_equal. f_equal. lia.
      * f_equal. f_equal. lia.
    + split; [lia|]. rewrite Hs, H1t, H1s. reflexivity.
Qed.

Lemma startswith_contains p s :
  Py.startswith p s = true -> Py.contains p s = true.
Proof.
  intros H. destruct s; cbn [Py.contains]; now rewrite H.
Qed.

Lemma structure_ok_first lines :
  structure_ok lines = true ->
  exists line0 rest,
    lines = line0 :: rest /\ Py.startswith START_MARK line0 = true.
Proof.
  unfold structure_ok. destruct lines as [|line0 rest]; [discriminate|].
  destruct (Py.startswith START_MARK line0) eqn:E; [|discriminate].
  intros _. exists line0, rest. now split.
Qed.

(** X1: in every record [aideJson] returns, [timestamp] is set, never
    [None]: the clock is read once for each line containing
    [Start timestamp:], there is at least one such line, and the record
    keeps the reading taken at the last of them. *)
Theorem timestamp_is_last_clock_reading (lines : list str) (d : data) :
  aideJson clock lines = Py.Ok (Some d) ->
  exists n,
    count_starts lines = S n /\ timestamp d = Some (clock n).
Proof.
  intros H. apply aideJson_some in H as [Hok [st [H ->]]].
  apply structure_ok_first in Hok as [line0 [rest [-> H0]]].
  apply run_lines_clock in H as [_ Hs].
  unfold count_starts in *. cbn [filter] in *.
  rewrite (startswith_contains _ _ H0) in *. cbn [length] in *.
  eexists. split; [reflexivity|]. exact Hs.
Qed.

End Clock.

Lemma timestamp_is_last_clock_reading_witness :
  exists n,
    count_starts report_sections = S n
    /\ timestamp (record_of report_sections) = Some (clock0 n).
Proof.
  apply (timestamp_is_last_clock_reading clock0). vm_compute. reflexivity.
Defined.

(** ** Bounds on what the record holds *)

Lemma truncateString_length_le value max_length :
  (3 <= max_length)%Z ->
  (Z.of_nat (length (truncateString value max_length)) <= max_length)%Z.
Proof.
  intros H3.
  destruct (Z_le_gt_dec (Z.of_nat (length value)) max_length) as [Hle|Hgt].
  - now rewrite truncateString_short.
  - destruct (truncateString_long value max_length H3 Hgt) as [_ ->]. lia.
Qed.

(** X2: every path in the three lists of a returned record has at most
    [MAX_LENGTH] = 100 characters. *)
Theorem entries_within_max_length
    (clock : nat -> str) (lines : list str) (d : data) (k : entries_key)
    (p : str) :
  aideJson clock lines = Py.Ok (Some d) ->
  In p (entries k d) ->
  length p <= 100.
Proof.
  intros H Hin. apply aideJson_some in H as [_ [st [H ->]]].
  destruct (run_lines_entries clock k lines _ _ H)
    as [src [more [_ [Hf Hm]]]].
  rewrite Hm in Hin. replace (entries k (dat loop0)) with (@nil str) in Hin
    by now destruct k.
  simpl in Hin. clear Hm. induction Hf as [|l q src more Hq Hf IH].
  - contradiction.
  - destruct Hin as [<-|Hin]; [|auto].
    destruct Hq as [path [_ ->]].
    pose proof (truncateString_length_le path MAX_LENGTH) as Hl.
    unfold MAX_LENGTH in *. lia.
Qed.

Lemma entries_within_max_length_witness :
  length (truncateString (lit "/etc/hosts") MAX_LENGTH) <= 100.
Proof.
  apply (entries_within_max_length clock0 report_sections
           (record_of report_sections) k_changed).
  - vm_compute. reflexivity.
  - vm_compute. left. reflexivity.
Defined.

(** ** Entries outside every section *)

Section NoHeader.

Variable clock : nat -> str.

Lemma run_lines_no_header lines : forall st st',
  run_lines clock st lines = Py.Ok st' ->
  last_header lines = None ->
  state st = initial ->
  state st' = initial /\ forall k, entries k (dat st') = entries k (dat st).
Proof.
  induction lines as [|l lines IH]; intros st st' H Hn Hi.
  - simpl in H. injection H as <-. now split.
  - apply run_lines_cons_ok in H as [st1 [H1 H2]].
    simpl in Hn. destruct (last_header lines) eqn:El; [discriminate|].
    apply process_line_ok in H1 as [_ [Hs He]]. rewrite Hn in Hs.
    destruct (IH _ _ H2 eq_refl) as [Hs' He']; [congruence|].
    split; [assumption|]. intros k. rewrite He', He, Hi.
    unfold appended. cbn [target].
    destruct (entry_path l); apply app_nil_r.
Qed.

(** X3: when no line of the report is taken for a section header, the
    three lists of the returned record are empty: entry lines read in the
    [initial] state are dropped. *)
Theorem entries_without_header_are_dropped
    (lines : list str) (d : data) (k : entries_key) :
  aideJson clock lines = Py.Ok (Some d) ->
  last_header lines = None ->
  entries k d = [].
Proof.
  intros H Hn. apply aideJson_some in H as [_ [st [H ->]]].
  destruct (run_lines_no_header lines _ _ H Hn eq_refl) as [_ He].
  rewrite He. now destruct k.
Qed.

End NoHeader.

Lemma entries_without_header_are_dropped_witness :
  entries k_added (record_of report_no_header) = [].
Proof.
  apply (entries_without_header_are_dropped clock0 report_no_header);
    vm_compute; reflexivity.
Defined.

(** ** What a summary count can be *)

Lemma star_inv {A} p (k : str -> option A) s x :
  Re.star p k s = Some x ->
  exists w rest, s = w ++ rest /\ forallb p w = true /\ k rest = Some x.
Proof.
  induction s as [|c s IH]; simpl.
  - intros H. now exists [], [].
  - destruct (p c) eqn:Hc.
    + destruct (Re.star p k s) as [y|] eqn:E.
      * intros [= ->]. destruct (IH eq_refl) as [w [rest [-> [Hw Hk]]]].
        exists (c :: w), rest. simpl. now rewrite Hc, Hw.
      * intros H. now exists [], (c :: s).
    + intros H. now exists [], (c :: s).
Qed.

(** A match calls its continuation. *)
Lemma run_inv {A} r : forall (k : str -> option A) s x,
  Re.run r k s = Some x -> exists s', k s' = Some x.
Proof.
  induction r as [l|p|p|p|r1 IH1 r2 IH2|r1 IH1 r2 IH2]; intros k s x;
    cbn [Re.run].
  - destruct (Py.drop_prefix l s); [eauto|discriminate].
  - destruct s as [|c s]; [discriminate|].
    destruct (p c); [eauto|discriminate].
  - intros H. apply star_inv in H as [w [rest [_ [_ H]]]]. eauto.
  - destruct s as [|c s]; [discriminate|].
    destruct (p c); [|discriminate].
    intros H. apply star_inv in H as [w [rest [_ [_ H]]]]. eauto.
  - intros H. apply IH1 in H as [s1 H]. now apply IH2 in H.
  - destruct (Re.run r1 k s) eqn:E.
    + intros [= <-]. now apply IH1 in E.
    + apply IH2.
Qed.

Lemma search_inv {A} (m : str -> option A) s x :
  Re.search m s = Some x -> exists t, m t = Some x.
Proof.
  induction s as [|c s IH]; cbn [Re.search].
  - destruct (m []) eqn:E; [intros [= <-]; eauto|discriminate].
  - destruct (m (c :: s)) eqn:E; [intros [= <-]; eauto|exact IH].
Qed.

(** Group 1 of the summary pattern is a non-empty run of decimal digits. *)
Lemma search_summary_group label s g :
  Re.search_summary label s = Some g ->
  g <> [] /\ forallb Py.isdecimal g = true.
Proof.
  unfold Re.search_summary. intros H.
  apply search_inv in H as [t H]. unfold Re.summary_at in H.
  apply run_inv in H as [s1 H]. cbn [Re.run] in H.
  destruct s1 as [|c s1]; [discriminate|].
  destruct (Py.isdecimal c) eqn:Hc; [|discriminate].
  apply star_inv in H as [w [rest [-> [Hw H]]]].
  assert (E : firstn (length (c :: w ++ rest) - length rest) (c :: w ++ rest)
              = c :: w).
  { replace (length (c :: w ++ rest) - length rest) with (length (c :: w))
      by (cbn [length]; rewrite length_app; lia).
    change (c :: w ++ rest) with ((c :: w) ++ rest).
    now rewrite firstn_app, firstn_all, Nat.sub_diag, app_nil_r. }
  cbv beta in H. rewrite E in H. injection H as <-.
  split; [discriminate|]. simpl. now rewrite Hc.
Qed.

Lemma digit_value_range c :
  Py.isdecimal c = true -> (0 <= Py.digit_value c <= 9)%Z.
Proof.
  destruct c as [[] [] [] [] [] [] [] []]; vm_compute; intuition congruence.
Qed.

Lemma fold_digits_nonneg ds : forall acc,
  (0 <= acc)%Z -> forallb Py.isdecimal ds = true ->
  (0 <= fold_left (fun a c => 10 * a + Py.digit_value c) ds acc)%Z.
Proof.
  induction ds as [|c ds IH]; intros acc Ha; cbn [fold_left forallb];
    [auto|].
  intros H. apply andb_true_iff in H as [Hc Hd].
  pose proof (digit_value_range c Hc). apply IH; [lia|assumption].
Qed.

Lemma int_value_nonneg ds :
  forallb Py.isdecimal ds = true -> (0 <= Py.int_value ds)%Z.
Proof. apply fold_digits_nonneg. lia. Qed.

Section Counts.

Variable clock : nat -> str.

Lemma run_lines_summary_value key lines : forall st st' v,
  run_lines clock st lines = Py.Ok st' ->
  dict_get key (summary (dat st')) = Some v ->
  dict_get key (summary (dat st)) = Some v
  \/ exists l g,
      In l lines /\ line_summary l = Some (key, g) /\ v = Py.int_value g.
Proof.
  induction lines as [|l lines IH]; intros st st' v H Hv.
  - simpl in H. injection H as <-. now left.
  - apply run_lines_cons_ok in H as [st1 [H1 H2]].
    apply process_line_ok in H1 as [Hs _].
    destruct (IH _ _ _ H2 Hv) as [H|[l' [g [Hin [Hl ->]]]]].
    + rewrite Hs in H. destruct (line_summary l) as [[key' g]|] eqn:E;
        [|now left].
      destruct (summary_key_eqb key key') eqn:Ek.
      * apply summary_key_eqb_eq in Ek. subst key'.
        rewrite dict_get_set_same in H. injection H as <-.
        right. exists l, g. repeat split; [now left|assumption].
      * rewrite dict_get_set_other in H; [now left|].
        intros ->. now rewrite summary_key_eqb_refl in Ek.
    + right. exists l', g. repeat split; [now right|assumption].
Qed.

(** X4: every integer in a returned record is the value of a non-empty
    run of decimal digits that follows the key's label, a colon and white
    space in some line of the report; so it is never negative. *)
Theorem summary_counts_come_from_digits
    (lines : list str) (d : data) (key : summary_key) (v : Z) :
  aideJson clock lines = Py.Ok (Some d) ->
  dict_get key (summary d) = Some v ->
  (0 <= v)%Z
  /\ exists line label group1,
      In line lines
      /\ In (label, key) summary_patterns
      /\ Re.search_summary label (Py.strip line) = Some group1
      /\ group1 <> []
      /\ forallb Py.isdecimal group1 = true
      /\ v = Py.int_value group1.
Proof.
  intros H Hv. apply aideJson_some in H as [_ [st [H ->]]].
  destruct (run_lines_summary_value key lines _ _ _ H Hv)
    as [H0|[l [g [Hin [Hl ->]]]]]; [discriminate|].
  apply line_summary_search in Hl as [label [Hlab Hs]].
  destruct (search_summary_group _ _ _ Hs) as [Hne Hd].
  split; [now apply int_value_nonneg|].
  exists l, label, g. repeat split; assumption.
Qed.

End Counts.

Lemma summary_counts_come_from_digits_witness :
  (0 <= 42)%Z
  /\ exists line label group1,
      In line report_sections
      /\ In (label, total_entries) summary_patterns
      /\ Re.search_summary label (Py.strip line) = Some group1
      /\ group1 <> []
      /\ forallb Py.isdecimal group1 = true
      /\ 42%Z = Py.int_value group1.
Proof.
  apply (summary_counts_come_from_digits clock0 report_sections
           (record_of report_sections) total_entries);
    vm_compute; reflexivity.
Defined.

(** ** White space around a line *)

Lemma lstrip_idem s : Py.lstrip (Py.lstrip s) = Py.lstrip s.
Proof.
  induction s as [|c s IH]; simpl; [reflexivity|].
  destruct (Py.isspace c) eqn:E; [assumption|]. simpl. now rewrite E.
Qed.

Lemma rstrip_idem s : Py.rstrip (Py.rstrip s) = Py.rstrip s.
Proof.
  unfold Py.rstrip. now rewrite rev_involutive, lstrip_idem.
Qed.

Lemma lstrip_snoc x c :
  Py.isspace c = false -> exists y, Py.lstrip (x ++ [c]) = y ++ [c].
Proof.
  intros Hc. induction x as [|a x [y IH]]; simpl.
  - rewrite Hc. now exists [].
  - destruct (Py.isspace a).
    + now exists y.
    + now exists (a :: x).
Qed.

Lemma lstrip_head c s : Py.isspace c = false -> Py.lstrip (c :: s) = c :: s.
Proof. intros H. simpl. now rewrite H. Qed.

Lemma lstrip_shape s :
  Py.lstrip s = [] \/ exists c t, Py.lstrip s = c :: t /\ Py.isspace c = false.
Proof.
  induction s as [|c s IH]; simpl; [now left|].
  destruct (Py.isspace c) eqn:E; [assumption|]. right. eauto.
Qed.

Lemma strip_idem s : Py.strip (Py.strip s) = Py.strip s.
Proof.
  unfold Py.strip.
  assert (H : Py.lstrip (Py.rstrip (Py.lstrip s)) = Py.rstrip (Py.lstrip s)).
  { destruct (lstrip_shape s) as [->|[c [t [-> Hc]]]]; [reflexivity|].
    unfold Py.rstrip. simpl rev.
    destruct (lstrip_snoc (rev t) c Hc) as [y ->].
    rewrite rev_app_distr. simpl. now rewrite Hc. }
  now rewrite H, rstrip_idem.
Qed.

Lemma startswith_spaces p w :
  Py.startswith p w = true -> forallb Py.isspace w = true ->
  forallb Py.isspace p = true.
Proof.
  revert w. induction p as [|a p IH]; intros w; [reflexivity|].
  destruct w as [|b w]; simpl; [discriminate|].
  intros H Hw. apply andb_true_iff in H as [Hab H].
  apply andb_true_iff in Hw as [Hb Hw].
  apply Ascii.eqb_eq in Hab. subst b. rewrite Hb. simpl. eauto.
Qed.

Lemma ends_nonspace_not_spaces p :
  ends_nonspace p = true -> forallb Py.isspace p = false.
Proof.
  unfold ends_nonspace. intros H.
  destruct (forallb Py.isspace p) eqn:E; [|reflexivity].
  rewrite forallb_forall in E.
  destruct (rev p) as [|c r] eqn:Er; [discriminate|].
  assert (Hin : In c p) by (apply in_rev; rewrite Er; now left).
  apply E in Hin. now rewrite Hin in H.
Qed.

Lemma ends_nonspace_tail a b p :
  ends_nonspace (a :: b :: p) = ends_nonspace (b :: p).
Proof.
  unfold ends_nonspace. cbn [rev].
  destruct (rev p ++ [b]) as [|c r] eqn:E.
  - now destruct (rev p).
  - reflexivity.
Qed.

Lemma startswith_trailing_spaces p : forall t w,
  ends_nonspace p = true -> forallb Py.isspace w = true ->
  Py.startswith p (t ++ w) = Py.startswith p t.
Proof.
  induction p as [|a p IH]; intros t w Hp Hw; [discriminate|].
  destruct t as [|b t].
  - simpl app. transitivity false; [|reflexivity].
    destruct (Py.startswith (a :: p) w) eqn:E; [|reflexivity].
    apply startswith_spaces in E; [|assumption].
    now rewrite (ends_nonspace_not_spaces _ Hp) in E.
  - cbn [app Py.startswith]. destruct p as [|a' p].
    + now destruct (t ++ w), t.
    + rewrite ends_nonspace_tail in Hp. now rewrite IH.
Qed.

Lemma contains_trailing_spaces p t w :
  ends_nonspace p = true -> forallb Py.isspace w = true ->
  Py.contains p (t ++ w) = Py.contains p t.
Proof.
  intros Hp Hw. induction t as [|b t IH].
  - simpl app. transitivity false.
    + destruct p as [|a p]; [discriminate|].
      clear -Hp Hw. induction w as [|c w IHw]; [reflexivity|].
      cbn [Py.contains].
      pose proof (startswith_trailing_spaces (a :: p) [] (c :: w) Hp Hw)
        as E. simpl app in E. rewrite E. simpl in Hw.
      apply andb_true_iff in Hw as [_ Hw]. now rewrite IHw.
    + now destruct p.
  - cbn [app Py.contains].
    change (b :: t ++ w) with ((b :: t) ++ w).
    now rewrite startswith_trailing_spaces, IH.
Qed.

Lemma contains_leading_spaces a p w t :
  Py.isspace a = false -> forallb Py.isspace w = true ->
  Py.contains (a :: p) (w ++ t) = Py.contains (a :: p) t.
Proof.
  intros Ha. induction w as [|c w IH]; intros Hw; [reflexivity|].
  simpl in Hw. apply andb_true_iff in Hw as [Hc Hw].
  cbn [app Py.contains Py.startswith].
  rewrite (eqb_space_false _ _ Ha Hc). simpl. auto.
Qed.

(** A marker that neither begins nor ends with white space is in a line
    exactly when it is in the trimmed line. *)
Lemma contains_strip a p s :
  Py.isspace a = false -> ends_nonspace (a :: p) = true ->
  Py.contains (a :: p) (Py.strip s) = Py.contains (a :: p) s.
Proof.
  intros Ha Hp. destruct (strip_decompose s) as [w1 [w2 [E [H1 H2]]]].
  rewrite E at 2.
  now rewrite contains_leading_spaces, contains_trailing_spaces.
Qed.

Lemma contains_start_strip s :
  Py.contains START_MARK (Py.strip s) = Py.contains START_MARK s.
Proof. now apply (contains_strip "S"%char). Qed.

Section Trimmed.

Variable clock : nat -> str.

Lemma process_line_strip st line :
  process_line clock st (Py.strip line) = process_line clock st line.
Proof.
  unfold process_line. now rewrite contains_start_strip, strip_idem.
Qed.

(** X5: the loop sees a line only through its trimmed text: white space
    added to or removed from either end of any line changes neither the
    outcome of the pass nor any field of its result. *)
Theorem pass_ignores_outer_white_space (st : loop) (lines lines' : list str) :
  map Py.strip lines = map Py.strip lines' ->
  run_lines clock st lines = run_lines clock st lines'.
Proof.
  revert st lines'. induction lines as [|l lines IH]; intros st lines' H.
  - destruct lines'; [reflexivity|discriminate].
  - destruct lines' as [|l' lines']; [discriminate|].
    injection H as Hl Hr. cbn [run_lines].
    rewrite <- (process_line_strip st l), Hl, process_line_strip.
    destruct (process_line clock st l'); cbn [Py.bind]; auto.
Qed.

End Trimmed.

Lemma pass_ignores_outer_white_space_witness :
  run_lines clock0 loop0
    [line_start; count_line "Added entries" "1"; nl "f+++: /etc/new"]
  = run_lines clock0 loop0
      [line_start; lit "Added entries:" ++ [TAB] ++ lit "1";
       lit "  f+++: /etc/new"].
Proof.
  apply (pass_ignores_outer_white_space clock0). vm_compute. reflexivity.
Defined.

(** ** Lists only grow *)

(** X23: reading on never removes, changes or reorders a recorded path:
    the three lists the loop holds after any first part of the report are
    prefixes of the lists of the returned record. *)
Theorem entries_only_grow
    (clock : nat -> str) (seen rest : list str) (d : data)
    (k : entries_key) :
  aideJson clock (seen ++ rest) = Py.Ok (Some d) ->
  exists st more,
    run_lines clock loop0 seen = Py.Ok st
    /\ entries k d = entries k (dat st) ++ more.
Proof.
  intros H. apply aideJson_some in H as [_ [st_end [H ->]]].
  apply run_lines_app_ok in H as [st [Hs Hr]].
  destruct (run_lines_entries clock k rest _ _ Hr)
    as [src [more [_ [_ Hm]]]].
  exists st, more. now split.
Qed.

Lemma entries_only_grow_witness :
  exists st more,
    run_lines clock0 loop0 (firstn 13 report_sections) = Py.Ok st
    /\ entries k_changed (record_of report_sections)
       = entries k_changed (dat st) ++ more.
Proof.
  apply (entries_only_grow clock0 (firstn 13 report_sections)
           (skipn 13 report_sections)).
  vm_compute. reflexivity.
Defined.

(** ** The three outcomes *)

(** X6: [aideJson] has three outcomes, each decided by the lines alone.  It
    returns [None] exactly when a structural check fails; it returns a
    record exactly when the checks pass and every line is safe for the
    loop body ([line_safe]: a count of at most 4300 digits, and a colon
    followed by a space on any line on which the entry pattern is tried
    and matches); on the remaining inputs it raises. *)
Theorem aideJson_three_outcomes (clock : nat -> str) (lines : list str) :
  (aideJson clock lines = Py.Ok None <-> structure_ok lines = false)
  /\ ((exists d, aideJson clock lines = Py.Ok (Some d))
      <-> structure_ok lines = true /\ forallb line_safe lines = true)
  /\ ((exists e, aideJson clock lines = Py.Raise e)
      <-> structure_ok lines = true /\ forallb line_safe lines = false).
Proof.
  pose proof (run_lines_returns clock lines loop0) as Hr.
  unfold aideJson. destruct (structure_ok lines).
  - destruct (run_lines clock loop0 lines) as [st|e] eqn:E; cbn [Py.bind].
    + assert (Hs : forallb line_safe lines = true) by (apply Hr; eauto).
      split; [split; discriminate|]. split; split.
      * now intros _.
      * intros _. eauto.
      * intros [e X]. discriminate X.
      * intros [_ X]. congruence.
    + assert (Hs : forallb line_safe lines = false).
      { destruct (forallb line_safe lines); [|reflexivity].
        destruct Hr as [_ Hr]. destruct (Hr eq_refl) as [st X].
        discriminate X. }
      split; [split; discriminate|]. split; split.
      * intros [d X]. discriminate X.
      * intros [_ X]. congruence.
      * now intros _.
      * intros _. eauto.
  - split; [now split|]. split; split.
    + intros [d X]. discriminate X.
    + intros [X _]. discriminate X.
    + intros [e X]. discriminate X.
    + intros [X _]. discriminate X.
Qed.

(** * The text of the record *)

(** ** Characters of the JSON text *)

Lemma escape_printable c : forallb Json.printable (Json.escape c) = true.
Proof.
  destruct c as [[] [] [] [] [] [] [] []]; vm_compute; reflexivity.
Qed.

Lemma encode_str_printable s :
  forallb Json.printable (Json.encode_str s) = true.
Proof.
  unfold Json.encode_str. cbn [forallb].
  apply andb_true_iff; split; [reflexivity|].
  rewrite forallb_app.
  apply andb_true_iff; split; [|reflexivity].
  induction s as [|c s IH]; [reflexivity|].
  cbn [flat_map]. now rewrite forallb_app, escape_printable.
Qed.

Lemma string_of_uint_printable d :
  forallb Json.printable
    (list_ascii_of_string (DecimalString.NilEmpty.string_of_uint d)) = true.
Proof. induction d; simpl; auto. Qed.

Lemma encode_int_printable z : forallb Json.printable (Json.encode_int z) = true.
Proof.
  unfold Json.encode_int, DecimalString.NilZero.string_of_int,
    DecimalString.NilZero.string_of_uint.
  destruct (Z.to_int z) as [d|d]; destruct d;
    try reflexivity; cbn [list_ascii_of_string];
    try (cbn [forallb]; rewrite string_of_uint_printable; reflexivity).
Qed.

Lemma join_printable sep l :
  forallb Json.printable sep = true ->
  Forall (fun x => forallb Json.printable x = true) l ->
  forallb Json.printable (Json.join sep l) = true.
Proof.
  intros Hs H. induction H as [|x r Hx Hr IH]; [reflexivity|].
  cbn [Json.join]. destruct r as [|y r]; [assumption|].
  now rewrite !forallb_app, Hx, Hs, IH.
Qed.

Lemma dumps_printable j : forallb Json.printable (Json.dumps j) = true.
Proof.
  induction j using json_nested_ind; cbn [Json.dumps].
  - reflexivity.
  - apply encode_int_printable.
  - apply encode_str_printable.
  - rewrite !forallb_app.
    apply andb_true_iff; split; [reflexivity|].
    apply andb_true_iff; split; [|reflexivity].
    apply join_printable; [reflexivity|].
    apply Forall_map. assumption.
  - rewrite !forallb_app.
    apply andb_true_iff; split; [reflexivity|].
    apply andb_true_iff; split; [|reflexivity].
    apply join_printable; [reflexivity|].
    apply Forall_map. eapply Forall_impl; [|eassumption].
    intros kv Hkv. cbv beta.
    now rewrite !forallb_app, encode_str_printable, Hkv.
Qed.

(** X7: whatever the paths and the timestamp hold, the text written for a
    record consists of printable ASCII characters only, space to tilde: no
    line feed or other control character and no character beyond 126
    reaches the output, so the text is a single line. *)
Theorem json_dumps_is_one_printable_line (d : data) :
  forallb Json.printable (json_dumps d) = true
  /\ absent LF (json_dumps d) = true.
Proof.
  assert (H : forallb Json.printable (json_dumps d) = true)
    by apply dumps_printable.
  split; [exact H|].
  unfold absent. rewrite forallb_forall in *. intros c Hc.
  apply H in Hc. destruct (Ascii.eqb LF c) eqn:E; [|reflexivity].
  apply Ascii.eqb_eq in E. subst c. discriminate Hc.
Qed.

(** ** Member names *)

Lemma key_name_not_fixed key :
  ~ In (key_name key)
      [ lit "timestamp"; lit "error_severity"; lit "application_name";
        lit "backend_type"; lit "added_entries"; lit "removed_entries";
        lit "changed_entries"; lit "message" ].
Proof.
  destruct key; simpl; intros H;
    repeat (destruct H as [H|H]; [discriminate H|]); exact H.
Qed.

Lemma key_name_inj a b : key_name a = key_name b -> a = b.
Proof. destruct a, b; simpl; intros H; try reflexivity; discriminate H. Qed.

(** X8: the JSON object of a returned record names each member once: the
    eight members of the dict literal, in its order, then the summary keys
    that were recorded, none of them twice. *)
Theorem json_member_names_are_unique
    (clock : nat -> str) (lines : list str) (d : data) :
  aideJson clock lines = Py.Ok (Some d) ->
  NoDup (map fst (json_members d))
  /\ map fst (json_members d)
     = [ lit "timestamp"; lit "error_severity"; lit "application_name";
         lit "backend_type"; lit "added_entries"; lit "removed_entries";
         lit "changed_entries"; lit "message" ]
       ++ map key_name (map fst (summary d)).
Proof.
  intros H. apply aideJson_some in H as [_ [st [H ->]]].
  assert (Hn : NoDup (map fst (summary (dat st)))).
  { apply (run_lines_summary_nodup clock lines _ _ H). constructor. }
  assert (E : map fst (json_members (dat st))
              = [ lit "timestamp"; lit "error_severity";
                  lit "application_name"; lit "backend_type";
                  lit "added_entries"; lit "removed_entries";
                  lit "changed_entries"; lit "message" ]
                ++ map key_name (map fst (summary (dat st)))).
  { unfold json_members. rewrite map_app, !map_map. reflexivity. }
  split; [|exact E]. rewrite E.
  apply NoDup_app.
  - repeat constructor; simpl; intros X;
      repeat (destruct X as [X|X]; [discriminate X|]); exact X.
  - clear -Hn. induction Hn as [|k l Hk Hl IH]; simpl; constructor;
      [|assumption].
    intros Hin. apply in_map_iff in Hin as [k' [Hk' Hin]].
    apply key_name_inj in Hk'. now subst k'.
  - intros x Hx Hin. apply in_map_iff in Hin as [k [<- _]].
    now apply (key_name_not_fixed k).
Qed.

Lemma json_member_names_are_unique_witness :
  NoDup (map fst (json_members (record_of report_sections)))
  /\ map fst (json_members (record_of report_sections))
     = [ lit "timestamp"; lit "error_severity"; lit "application_name";
         lit "backend_type"; lit "added_entries"; lit "removed_entries";
         lit "changed_entries"; lit "message" ]
       ++ map key_name (map fst (summary (record_of report_sections))).
Proof.
  apply (json_member_names_are_unique clock0 report_sections).
  vm_compute. reflexivity.
Defined.

(** ** The timestamp text *)

Lemma length_zpad w : forall n, length (zpad w n) = w.
Proof.
  induction w as [|w IH]; intros n; cbn [zpad]; [reflexivity|].
  rewrite length_app, IH. simpl. lia.
Qed.

(** The [k] low digits can be split off. *)
Lemma zpad_split w k : forall n,
  zpad (k + w) n = zpad w (n / 10 ^ N.of_nat k) ++ zpad k n.
Proof.
  induction k as [|k IH]; intros n.
  - cbn [Nat.add zpad]. change (10 ^ N.of_nat 0)%N with 1%N.
    now rewrite N.div_1_r, app_nil_r.
  - cbn [Nat.add zpad]. rewrite IH, <- app_assoc. do 2 f_equal.
    rewrite N.Div0.div_div. f_equal.
    rewrite Nat2N.inj_succ, N.pow_succ_r'. reflexivity.
Qed.

Lemma slice_to_drop a b :
  Py.slice_to (- Z.of_nat (length b)) (a ++ b) = a \/ b = [].
Proof.
  destruct b as [|c b]; [now right|left].
  unfold Py.slice_to.
  replace (- Z.of_nat (length (c :: b)) <? 0)%Z with true
    by (symmetry; apply Z.ltb_lt; simpl length; lia).
  replace (Z.to_nat (Z.of_nat (length (a ++ c :: b))
                     + - Z.of_nat (length (c :: b))))
    with (length a + 0) by (rewrite length_app; lia).
  now rewrite firstn_app_2, app_nil_r.
Qed.

Lemma four_digit_years :
  forallb (fun n => length (str_of_N (N.of_nat n)) =? 4)
    (seq 1000 (9 * 1000))
  = true.
Proof. vm_compute. reflexivity. Qed.

Lemma length_str_of_year y :
  (1000 <= y <= 9999)%N -> length (str_of_N y) = 4.
Proof.
  intros H. pose proof four_digit_years as F.
  rewrite forallb_forall in F.
  specialize (F (N.to_nat y)). rewrite N2Nat.id in F.
  apply Nat.eqb_eq, F, in_seq. lia.
Qed.

(** X9: for a time [now] in the years 1000 to 9999, [currentTimestamp]
    is the 23 characters [YYYY-MM-DD HH:MM:SS.mmm], where [mmm] are the
    milliseconds: the microseconds divided by 1000 and cut, not rounded. *)
Theorem currentTimestamp_has_milliseconds (now : datetime) :
  datetime_valid now ->
  (1000 <= year now)%N ->
  currentTimestamp now
  = str_of_N (year now) ++ lit "-" ++ zpad 2 (month now) ++ lit "-"
    ++ zpad 2 (day now) ++ lit " " ++ zpad 2 (hour now) ++ lit ":"
    ++ zpad 2 (minute now) ++ lit ":" ++ zpad 2 (second now) ++ lit "."
    ++ zpad 3 (microsecond now / 1000)
  /\ length (currentTimestamp now) = 23.
Proof.
  intros [[_ Hy] _] Hy0.
  assert (E : currentTimestamp now
              = str_of_N (year now) ++ lit "-" ++ zpad 2 (month now)
                ++ lit "-" ++ zpad 2 (day now) ++ lit " "
                ++ zpad 2 (hour now) ++ lit ":" ++ zpad 2 (minute now)
                ++ lit ":" ++ zpad 2 (second now) ++ lit "."
                ++ zpad 3 (microsecond now / 1000)).
  { unfold currentTimestamp, strftime.
    change (zpad 6 (microsecond now)) with (zpad (3 + 3) (microsecond now)).
    rewrite (zpad_split 3 3 (microsecond now)).
    change (10 ^ N.of_nat 3)%N with 1000%N.
    set (ms := zpad 3 (microsecond now / 1000)).
    set (low := zpad 3 (microsecond now)).
    assert (Hl : length low = 3) by apply length_zpad.
    rewrite !app_assoc.
    match goal with
    | |- Py.slice_to _ (?a ++ ?b) = _ =>
        destruct (slice_to_drop a b) as [Hs|Hs]
    end; [|rewrite Hs in Hl; discriminate Hl].
    rewrite Hl in Hs. exact Hs. }
  split; [exact E|]. rewrite E.
  rewrite !length_app, !length_zpad, length_str_of_year by lia.
  reflexivity.
Qed.

Lemma currentTimestamp_has_milliseconds_witness :
  currentTimestamp (mkDatetime 2024 1 2 3 4 5 6789)
  = lit "2024-01-02 03:04:05.006"
  /\ length (currentTimestamp (mkDatetime 2024 1 2 3 4 5 6789)) = 23.
Proof.
  apply (currentTimestamp_has_milliseconds (mkDatetime 2024 1 2 3 4 5 6789));
    vm_compute; intuition discriminate.
Defined.

Lemma dumps_printable_no_lf d : absent LF (json_dumps d) = true.
Proof.
  pose proof (dumps_printable (json_of_data d)) as H.
  unfold absent. rewrite forallb_forall in *. intros c Hc.
  apply H in Hc. destruct (Ascii.eqb LF c) eqn:E; [|reflexivity].
  apply Ascii.eqb_eq in E. subst c. discriminate Hc.
Qed.

(** ** Numbers in the JSON text *)

Lemma of_lu_rev_cons (k : N) d d1 :
  DecimalPos.Unsigned.of_lu d1 = k ->
  DecimalPos.Unsigned.of_lu (Decimal.revapp d d1)
  = (DecimalPos.Unsigned.of_lu (Decimal.rev d)
     + k * 10 ^ DecimalPos.Unsigned.usize d)%N.
Proof. intros <-. apply DecimalPos.Unsigned.of_lu_revapp. Qed.

(** Reading the digits of [d] after a value [acc]. *)
Lemma fold_chars_of d : forall acc,
  fold_digits (chars_of d) acc
  = (acc * Z.of_N (10 ^ DecimalPos.Unsigned.usize d)
     + Z.of_N (DecimalPos.Unsigned.of_lu (Decimal.rev d)))%Z.
Proof.
  induction d; intros acc;
    [ cbn; lia | .. ];
    (unfold chars_of, fold_digits in *;
     cbn [DecimalString.NilEmpty.string_of_uint list_ascii_of_string
          fold_left];
     rewrite IHd;
     unfold Decimal.rev; cbn [Decimal.revapp];
     match goal with
     | |- context [Decimal.revapp d (?D Decimal.Nil)] =>
         rewrite (of_lu_rev_cons
                    (DecimalPos.Unsigned.of_lu (D Decimal.Nil)) d
                    (D Decimal.Nil) eq_refl)
     end;
     cbn [DecimalPos.Unsigned.usize DecimalPos.Unsigned.of_lu];
     rewrite N.pow_succ_r', !N2Z.inj_add, !N2Z.inj_mul;
     unfold Decimal.rev;
     cbv [Py.digit_value nat_of_ascii N_of_ascii N_of_digits];
     simpl Z.of_N; simpl Z.of_nat; ring).
Qed.

Lemma chars_of_decimal d : forallb Py.isdecimal (chars_of d) = true.
Proof. induction d; simpl; auto. Qed.

Lemma encode_int_pos p :
  Json.encode_int (Zpos p) = chars_of (Pos.to_uint p)
  /\ Pos.to_uint p <> Decimal.Nil.
Proof.
  assert (Hn : Pos.to_uint p <> Decimal.Nil).
  { intros E. pose proof (DecimalPos.Unsigned.of_to p) as H.
    rewrite E in H. discriminate H. }
  split; [|exact Hn].
  unfold Json.encode_int, chars_of. cbn [Z.to_int].
  unfold DecimalString.NilZero.string_of_int,
    DecimalString.NilZero.string_of_uint.
  destruct (Pos.to_uint p); [congruence|reflexivity..].
Qed.

Lemma int_value_encode_int z :
  (0 <= z)%Z ->
  Py.int_value (Json.encode_int z) = z
  /\ Json.encode_int z <> []
  /\ forallb Py.isdecimal (Json.encode_int z) = true.
Proof.
  intros Hz. destruct z as [|p|p]; [now repeat split| |lia].
  destruct (encode_int_pos p) as [E Hn]. rewrite E.
  split; [|split].
  - change (Py.int_value (chars_of (Pos.to_uint p)))
      with (fold_digits (chars_of (Pos.to_uint p)) 0).
    rewrite fold_chars_of, <- DecimalPos.Unsigned.of_uint_alt,
      DecimalPos.Unsigned.of_to. reflexivity.
  - unfold chars_of. destruct (Pos.to_uint p); [congruence|discriminate..].
  - apply chars_of_decimal.
Qed.

(** X20: a summary count survives the way from the report to the JSON
    text: the number written for a key of a returned record is a
    non-empty run of decimal digits, with no sign, and [int] reads the
    recorded integer back from it. *)
Theorem summary_count_text_reads_back
    (clock : nat -> str) (lines : list str) (d : data) (key : summary_key)
    (v : Z) :
  aideJson clock lines = Py.Ok (Some d) ->
  dict_get key (summary d) = Some v ->
  json_lookup (key_name key) (json_members d) = [JInt v]
  /\ Json.dumps (JInt v) <> []
  /\ forallb Py.isdecimal (Json.dumps (JInt v)) = true
  /\ Py.int_value (Json.dumps (JInt v)) = v.
Proof.
  intros H Hv.
  assert (Hz : (0 <= v)%Z).
  { pose proof H as H'. apply aideJson_some in H' as [_ [st [H' ->]]].
    destruct (run_lines_summary_value clock key lines _ _ _ H' Hv)
      as [H0|[l [g [_ [Hl ->]]]]]; [discriminate H0|].
    apply line_summary_search in Hl as [label [_ Hs]].
    apply int_value_nonneg.
    now apply (search_summary_group label (Py.strip l) g). }
  destruct (int_value_encode_int v Hz) as [Hr [Hn Hd]].
  split; [|now repeat split].
  apply aideJson_some in H as [_ [st [H ->]]].
  rewrite json_lookup_members, Hv; [reflexivity|].
  apply (run_lines_summary_nodup clock lines _ _ H). constructor.
Qed.

Lemma summary_count_text_reads_back_witness :
  json_lookup (key_name total_entries)
    (json_members (record_of report_sections)) = [JInt 42]
  /\ Json.dumps (JInt 42) <> []
  /\ forallb Py.isdecimal (Json.dumps (JInt 42)) = true
  /\ Py.int_value (Json.dumps (JInt 42)) = 42%Z.
Proof.
  apply (summary_count_text_reads_back clock0 report_sections);
    vm_compute; reflexivity.
Defined.

(** ** The messages of the structural checks *)

Lemma start_excludes_end l :
  Py.startswith START_MARK l = true -> Py.startswith END_MARK l = false.
Proof.
  destruct l as [|c l]; [discriminate|].
  cbn [START_MARK END_MARK lit list_ascii_of_string Py.startswith].
  destruct (Ascii.eqb "S" c) eqn:E; [|discriminate].
  apply Ascii.eqb_eq in E. subst c. reflexivity.
Qed.

(** X21: the test [len(lines) < 2] never decides.  A report of one line
    already fails one of the two marker checks, so the message
    [No differences found or invalid log format] is logged only for a
    report of two lines or more, with both markers in place, whose second
    line has neither banner. *)
Theorem no_differences_message_needs_two_lines (lines : list str) :
  structure_ok lines = false ->
  structure_message lines
  = lit "Error: No differences found or invalid log format." ->
  exists line0 line1,
    nth_error lines 0 = Some line0
    /\ nth_error lines 1 = Some line1
    /\ Py.startswith START_MARK line0 = true
    /\ Py.startswith END_MARK (last_line lines) = true
    /\ Py.contains BANNER_DIFF line1 = false
    /\ Py.contains BANNER_VERSION line1 = false.
Proof.
  unfold structure_ok, structure_message.
  destruct lines as [|line0 rest]; [intros _ H; vm_compute in H; discriminate H|].
  destruct (Py.startswith START_MARK line0) eqn:E0; cbn [negb];
    [|intros _ H; vm_compute in H; discriminate H].
  destruct (Py.startswith END_MARK (last_line (line0 :: rest))) eqn:E1;
    cbn [negb]; [|intros _ H; vm_compute in H; discriminate H].
  destruct rest as [|line1 rest].
  - unfold last_line in E1. cbn [last] in E1.
    rewrite (start_excludes_end _ E0) in E1. discriminate E1.
  - cbn [nth_error]. intros H _. exists line0, line1.
    destruct (Py.contains BANNER_DIFF line1),
      (Py.contains BANNER_VERSION line1); try discriminate H.
    now repeat split.
Qed.

Lemma no_differences_message_needs_two_lines_witness :
  exists line0 line1,
    nth_error [line_start; nl "no banner"; line_end] 0 = Some line0
    /\ nth_error [line_start; nl "no banner"; line_end] 1 = Some line1
    /\ Py.startswith START_MARK line0 = true
    /\ Py.startswith END_MARK
         (last_line [line_start; nl "no banner"; line_end]) = true
    /\ Py.contains BANNER_DIFF line1 = false
    /\ Py.contains BANNER_VERSION line1 = false.
Proof.
  apply (no_differences_message_needs_two_lines
           [line_start; nl "no banner"; line_end]); reflexivity.
Defined.

(** * The workflow *)

Section WorkflowFacts.

Variable W : Type.
Variable E : environment W.

Ltac io_unfold :=
  unfold mainWorkflow, configExist, aideCheck, aideUpdate, aideJson_path,
    missing_among, log_missing, IO.bind, IO.ret, IO.raise, syslog,
    path_exists, run, read, write, rename.

(** ** [aideCheck] *)

Lemma in_range_8_spec code :
  in_range_8 code = true <-> (0 <= code <= 7)%Z.
Proof.
  unfold in_range_8. rewrite andb_true_iff, Z.leb_le, Z.ltb_lt. lia.
Qed.

(** X10: [aideCheck] never raises; it runs [aide --check] once, logs one
    message, and answers [True] exactly when the process finished with a
    return code from 0 to 7.  A negative code (a process killed by a
    signal), a code of 8 or more and an exception of [subprocess.run] all
    give [False]. *)
Theorem aideCheck_accepts_codes_0_to_7 (w : W) :
  exists b r w' lv message,
    subprocess_run E ARGV_CHECK w = (r, w')
    /\ aideCheck W E w
       = (Returned b, w', [SubprocessRun ARGV_CHECK r; Syslog lv message])
    /\ (b = true
        <-> exists returncode stderr,
              r = Exited returncode stderr /\ (0 <= returncode <= 7)%Z)
    /\ (lv = LOG_INFO <-> b = true).
Proof.
  io_unfold. destruct (subprocess_run E ARGV_CHECK w) as [r w'] eqn:Er.
  destruct r as [code err|e].
  - destruct (in_range_8 code) eqn:Ec.
    + exists true, (Exited code err), w'. do 2 eexists.
      repeat split; try reflexivity.
      exists code, err. split; [reflexivity|]. now apply in_range_8_spec.
    + exists false, (Exited code err), w'. do 2 eexists.
      repeat split; try reflexivity; try discriminate.
      intros [c [s [[= <- <-] Hc]]].
      apply in_range_8_spec in Hc. congruence.
  - exists false, (RunRaised e), w'. do 2 eexists.
    repeat split; try reflexivity; try discriminate.
    intros [c [s [X _]]]. discriminate X.
Qed.

(** ** [aideUpdate] *)

(** X11: [aideUpdate] never raises, and it does not look at the return
    code of [aide --update]: it answers [True] exactly when
    [subprocess.run] returned, with whatever code, the file
    [aide.db.new.gz] exists afterwards and renaming it to [aide.db.gz]
    succeeds; the rename is attempted only when the file exists. *)
Theorem aideUpdate_ignores_return_code (w : W) :
  exists b w' t,
    aideUpdate W E w = (Returned b, w', t)
    /\ (b = true
        <-> exists returncode stderr w1 w2,
              subprocess_run E ARGV_UPDATE w
              = (Exited returncode stderr, w1)
              /\ os_path_exists E AIDE_DB_SRC w1 = true
              /\ os_rename E AIDE_DB_SRC AIDE_DB_DST w1 = (None, w2))
    /\ (b = true <-> In (Rename AIDE_DB_SRC AIDE_DB_DST true) t)
    /\ (forall ok, In (Rename AIDE_DB_SRC AIDE_DB_DST ok) t ->
        In (PathExists AIDE_DB_SRC true) t).
Proof.
  io_unfold. destruct (subprocess_run E ARGV_UPDATE w) as [r w1] eqn:Er.
  destruct r as [code err|e].
  - destruct (os_path_exists E AIDE_DB_SRC w1) eqn:Ex.
    + destruct (os_rename E AIDE_DB_SRC AIDE_DB_DST w1) as [x w2] eqn:En.
      destruct x as [e|].
      * exists false. do 2 eexists. split; [reflexivity|].
        split; [|split].
        -- split; [discriminate|].
           intros [c [s [w3 [w4 [[= <- <- <-] [_ X]]]]]].
           rewrite En in X. discriminate X.
        -- split; [discriminate|]. simpl. intuition discriminate.
        -- intros ok _. simpl. auto.
      * exists true. do 2 eexists. split; [reflexivity|].
        split; [|split].
        -- split; [|reflexivity]. intros _.
           exists code, err, w1, w2. auto.
        -- split; [|reflexivity]. intros _. simpl. auto.
        -- intros ok _. simpl. auto.
    + exists false. do 2 eexists. split; [reflexivity|].
      split; [|split].
      * split; [discriminate|].
        intros [c [s [w3 [w4 [[= <- <- <-] [X _]]]]]]. congruence.
      * split; [discriminate|]. simpl. intuition discriminate.
      * intros ok X. simpl in X. intuition discriminate.
  - exists false. do 2 eexists. split; [reflexivity|].
    split; [|split].
    + split; [discriminate|].
      intros [c [s [w3 [w4 [X _]]]]]. discriminate X.
    + split; [discriminate|]. simpl. intuition discriminate.
    + intros ok X. simpl in X. intuition discriminate.
Qed.

(** ** [configExist] *)

(** X12: [configExist] asks for [aide.db.gz] and then for [aide.log],
    changes nothing, answers [True] exactly when both exist, and logs one
    error for each missing file, in that order, and nothing when none is
    missing. *)
Theorem configExist_reports_each_missing_file (w : W) :
  let files := [AIDE_DB_DST; AIDE_LOG_SRC] in
  let found := fun file => os_path_exists E file w in
  configExist W E w
  = (Returned (forallb found files), w,
     map (fun file => PathExists file (found file)) files
     ++ map (fun file =>
               Syslog LOG_ERR
                 (lit "Error: Expected config file " ++ file
                  ++ lit " does not exist."))
            (filter (fun file => negb (found file)) files)).
Proof.
  cbv zeta. io_unfold. cbn [forallb map filter].
  destruct (os_path_exists E AIDE_DB_DST w),
    (os_path_exists E AIDE_LOG_SRC w); reflexivity.
Qed.

End WorkflowFacts.

(** ** [mainWorkflow] *)

Section MainWorkflow.

Variable W : Type.
Variable E : environment W.

Ltac io_unfold :=
  unfold trace_of, outcome_of, mainWorkflow, configExist, aideCheck,
    aideUpdate, aideJson_path, missing_among, log_missing, IO.bind, IO.ret,
    IO.raise, syslog, path_exists, run, read, write, rename.

Ltac io_reduce := cbn [negb fst snd app].

(** One answer of the environment, or of the parser, at a time. *)
Ltac io_step :=
  match goal with
  | |- context [os_path_exists E ?p ?w] =>
      destruct (os_path_exists E p w) eqn:?
  | |- context [subprocess_run E ?a ?w] =>
      destruct (subprocess_run E a w) as [[? ?|?] ?] eqn:?
  | |- context [in_range_8 ?c] => destruct (in_range_8 c) eqn:?
  | |- context [read_lines E ?p ?w] =>
      destruct (read_lines E p w) as [?| | |?] eqn:?
  | |- context [aideJson ?c ?l] =>
      destruct (aideJson c l) as [[?|]|?] eqn:?
  | |- context [write_text E ?p ?x ?w] =>
      destruct (write_text E p x w) as [[?|] ?] eqn:?
  | |- context [os_rename E ?a ?b ?w] =>
      destruct (os_rename E a b w) as [[?|] ?] eqn:?
  end; io_reduce.

Ltac io_cases := io_unfold; io_reduce; repeat io_step.

(** X13: whatever the environment answers, [mainWorkflow] runs no command
    but [aide --check] and [aide --update], reads no file but [aide.log],
    writes no file but [aide_temp.json], and renames nothing but
    [aide_temp.json] to [aide.json] and [aide.db.new.gz] to
    [aide.db.gz]. *)
Theorem mainWorkflow_touches_only_its_files (w : W) :
  Forall allowed (trace_of (mainWorkflow W E) w).
Proof.
  io_cases; repeat (apply Forall_cons || apply Forall_nil);
    cbn [allowed]; auto 7.
Qed.

(** Membership in a trace of known shape. *)
Ltac trace_in :=
  repeat match goal with
    | H : In _ (_ :: _) |- _ => cbn [In] in H
    | H : In _ [] |- _ => destruct H
    | H : _ \/ _ |- _ => destruct H
    | H : False |- _ => destruct H
    | H : @eq event _ _ |- _ =>
        first [ discriminate H | injection H; clear H; intros ]
    | H : @eq (list str) _ _ |- _ => vm_compute in H; discriminate H
    | H : @eq str _ _ |- _ => vm_compute in H; discriminate H
    | H : @eq bool true false |- _ => discriminate H
    | H : @eq bool false true |- _ => discriminate H
    end.

(** X14: [aide --update] is run only at the end of one sequence of calls:
    both configuration files exist, [aide --check] finished with a code
    from 0 to 7, [aide.log] exists and was read, [aideJson] returned a
    record, its JSON text and a line feed were written to
    [aide_temp.json], and that file was renamed to [aide.json]. *)
Theorem update_runs_only_after_publication (w : W) (r : run_result) :
  In (SubprocessRun ARGV_UPDATE r) (trace_of (mainWorkflow W E) w) ->
  exists returncode stderr w1 lines d rest,
    subprocess_run E ARGV_CHECK w = (Exited returncode stderr, w1)
    /\ (0 <= returncode <= 7)%Z
    /\ read_lines E AIDE_LOG_SRC w1 = ReadLines lines
    /\ aideJson (clock_of W E) lines = Py.Ok (Some d)
    /\ trace_of (mainWorkflow W E) w
       = [ PathExists AIDE_DB_DST true;
           PathExists AIDE_LOG_SRC true;
           SubprocessRun ARGV_CHECK (Exited returncode stderr);
           Syslog LOG_INFO (lit "AIDE Check: Changes detected.");
           PathExists AIDE_LOG_SRC true;
           ReadFile AIDE_LOG_SRC;
           WriteFile AIDE_LOG_TMP (json_dumps d ++ [LF]) true;
           PathExists AIDE_LOG_TMP true;
           Rename AIDE_LOG_TMP AIDE_LOG_DST true;
           SubprocessRun ARGV_UPDATE r ] ++ rest.
Proof.
  io_cases; intros H; trace_in; subst;
    (do 6 eexists;
     split; [reflexivity|];
     split; [apply in_range_8_spec; eassumption|];
     split; [eassumption|];
     split; [eassumption|];
     cbn [app]; reflexivity).
Qed.

(** X15: the message [Workflow completed successfully!] is logged exactly
    in the runs in which [aide.db.new.gz] was renamed to [aide.db.gz]; in
    those runs [aide.json] was published before and [mainWorkflow] returns
    without an exception. *)
Theorem completion_means_database_replaced (w : W) :
  (In (Syslog LOG_INFO WORKFLOW_COMPLETED) (trace_of (mainWorkflow W E) w)
   <-> In (Rename AIDE_DB_SRC AIDE_DB_DST true)
          (trace_of (mainWorkflow W E) w))
  /\ (In (Syslog LOG_INFO WORKFLOW_COMPLETED)
         (trace_of (mainWorkflow W E) w) ->
      outcome_of (mainWorkflow W E) w = Returned tt
      /\ In (Rename AIDE_LOG_TMP AIDE_LOG_DST true)
            (trace_of (mainWorkflow W E) w)).
Proof.
  io_cases;
    (split; [split|]; intros H; trace_in;
     try (split; [reflexivity|]); cbn [In]; auto 15).
Qed.

(** X16: an exception of the parser is not caught.  In a run that gets
    to the report (both configuration files exist, [aide --check] ends
    with a code from 0 to 7 and [aide.log] is still there), when the loop
    of [aideJson] raises on the lines read, [mainWorkflow] ends with that
    exception right after reading the report: nothing is written, renamed
    or logged for it, [aide --update] is not run, and the state is the one
    the check left. *)
Theorem parser_exception_leaves_the_workflow
    (w w1 : W) (returncode : Z) (stderr : str) (lines : list str)
    (e : Py.exn) :
  os_path_exists E AIDE_DB_DST w = true ->
  os_path_exists E AIDE_LOG_SRC w = true ->
  subprocess_run E ARGV_CHECK w = (Exited returncode stderr, w1) ->
  (0 <= returncode <= 7)%Z ->
  os_path_exists E AIDE_LOG_SRC w1 = true ->
  read_lines E AIDE_LOG_SRC w1 = ReadLines lines ->
  aideJson (clock_of W E) lines = Py.Raise e ->
  mainWorkflow W E w
  = (Raised (ParserRaised e), w1,
     [ PathExists AIDE_DB_DST true;
       PathExists AIDE_LOG_SRC true;
       SubprocessRun ARGV_CHECK (Exited returncode stderr);
       Syslog LOG_INFO (lit "AIDE Check: Changes detected.");
       PathExists AIDE_LOG_SRC true;
       ReadFile AIDE_LOG_SRC ]).
Proof.
  intros H1 H2 H3 Hc H4 H5 Hr. apply in_range_8_spec in Hc.
  io_unfold. rewrite H1, H2. io_reduce. rewrite H3, Hc. io_reduce.
  rewrite H4. io_reduce. rewrite H5, Hr. reflexivity.
Qed.

(** X17: the only text [mainWorkflow] ever writes is the JSON text of a
    record that [aideJson] returned for the report just read, followed by
    a line feed, and it goes to [aide_temp.json]; that line feed is the
    only one in the file, so the file holds one line. *)
Theorem only_a_parsed_record_is_written
    (w : W) (path text : str) (ok : bool) :
  In (WriteFile path text ok) (trace_of (mainWorkflow W E) w) ->
  exists returncode stderr w1 lines d,
    subprocess_run E ARGV_CHECK w = (Exited returncode stderr, w1)
    /\ read_lines E AIDE_LOG_SRC w1 = ReadLines lines
    /\ aideJson (clock_of W E) lines = Py.Ok (Some d)
    /\ path = AIDE_LOG_TMP
    /\ text = json_dumps d ++ [LF]
    /\ absent LF (json_dumps d) = true.
Proof.
  io_cases; intros H; trace_in; subst;
    (do 5 eexists;
     split; [reflexivity|];
     split; [eassumption|];
     split; [eassumption|];
     split; [reflexivity|];
     split; [reflexivity|];
     apply dumps_printable_no_lf).
Qed.

(** X22: whenever [mainWorkflow] ends with an exception, of the parser or
    of the operating system, the database has not been touched: the
    exception comes from reading the report, from the parsing loop, from
    writing [aide_temp.json] or from renaming it, and [aide --update] was
    not run nor [aide.db.new.gz] renamed. *)
Theorem exception_leaves_database_untouched (w : W) (e : raised) :
  outcome_of (mainWorkflow W E) w = Raised e ->
  (forall r,
      ~ In (SubprocessRun ARGV_UPDATE r) (trace_of (mainWorkflow W E) w))
  /\ (forall ok,
         ~ In (Rename AIDE_DB_SRC AIDE_DB_DST ok)
              (trace_of (mainWorkflow W E) w))
  /\ ((exists text,
          last (trace_of (mainWorkflow W E) w) (Syslog LOG_INFO [])
          = WriteFile AIDE_LOG_TMP text false)
      \/ last (trace_of (mainWorkflow W E) w) (Syslog LOG_INFO [])
         = Rename AIDE_LOG_TMP AIDE_LOG_DST false
      \/ last (trace_of (mainWorkflow W E) w) (Syslog LOG_INFO [])
         = ReadFile AIDE_LOG_SRC).
Proof.
  io_cases; intros H; try discriminate H;
    (split; [intros r X; trace_in|];
     split; [intros ok X; trace_in|]);
    cbn [last]; eauto.
Qed.

(** X18: the workflow stops at the first step that fails.
    [aide --check] is run only when [aide.db.gz] and [aide.log] both exist
    beforehand, and the report is read only after a check that finished
    with a code from 0 to 7 and left [aide.log] in place. *)
Theorem workflow_stops_at_first_failure (w : W) :
  (forall r,
      In (SubprocessRun ARGV_CHECK r) (trace_of (mainWorkflow W E) w) ->
      os_path_exists E AIDE_DB_DST w = true
      /\ os_path_exists E AIDE_LOG_SRC w = true)
  /\ (forall path,
         In (ReadFile path) (trace_of (mainWorkflow W E) w) ->
         exists returncode stderr w1,
           subprocess_run E ARGV_CHECK w = (Exited returncode stderr, w1)
           /\ (0 <= returncode <= 7)%Z
           /\ os_path_exists E AIDE_LOG_SRC w1 = true).
Proof.
  io_cases;
    (split;
     [ intros r H; trace_in; auto
     | intros path H; trace_in;
       (do 3 eexists; split; [reflexivity|];
        split; [apply in_range_8_spec; eassumption|eassumption]) ]).
Qed.

(** X19: a report that fails a structural check ends the workflow with two
    error messages, the one of the first failed check and the parse
    error, and nothing is written, renamed or updated. *)
Theorem malformed_report_ends_the_workflow
    (w w1 : W) (returncode : Z) (stderr : str) (lines : list str) :
  os_path_exists E AIDE_DB_DST w = true ->
  os_path_exists E AIDE_LOG_SRC w = true ->
  subprocess_run E ARGV_CHECK w = (Exited returncode stderr, w1) ->
  (0 <= returncode <= 7)%Z ->
  os_path_exists E AIDE_LOG_SRC w1 = true ->
  read_lines E AIDE_LOG_SRC w1 = ReadLines lines ->
  structure_ok lines = false ->
  mainWorkflow W E w
  = (Returned tt, w1,
     [ PathExists AIDE_DB_DST true;
       PathExists AIDE_LOG_SRC true;
       SubprocessRun ARGV_CHECK (Exited returncode stderr);
       Syslog LOG_INFO (lit "AIDE Check: Changes detected.");
       PathExists AIDE_LOG_SRC true;
       ReadFile AIDE_LOG_SRC;
       Syslog LOG_ERR (structure_message lines);
       Syslog LOG_ERR
         (lit "AIDE Parse: Error: in parsing AIDE log. Exiting...") ]).
Proof.
  intros H1 H2 H3 Hc H4 H5 Hs. apply in_range_8_spec in Hc.
  io_unfold. rewrite H1, H2. io_reduce. rewrite H3, Hc. io_reduce.
  rewrite H4. io_reduce. rewrite H5.
  unfold aideJson. rewrite Hs. reflexivity.
Qed.

End MainWorkflow.

Lemma exception_leaves_database_untouched_witness :
  let env := toy_environment 1 report_long_count in
  (forall r,
      ~ In (SubprocessRun ARGV_UPDATE r) (trace_of (mainWorkflow unit env) tt))
  /\ (forall ok,
         ~ In (Rename AIDE_DB_SRC AIDE_DB_DST ok)
              (trace_of (mainWorkflow unit env) tt))
  /\ ((exists text,
          last (trace_of (mainWorkflow unit env) tt) (Syslog LOG_INFO [])
          = WriteFile AIDE_LOG_TMP text false)
      \/ last (trace_of (mainWorkflow unit env) tt) (Syslog LOG_INFO [])
         = Rename AIDE_LOG_TMP AIDE_LOG_DST false
      \/ last (trace_of (mainWorkflow unit env) tt) (Syslog LOG_INFO [])
         = ReadFile AIDE_LOG_SRC).
Proof.
  intros env.
  apply (exception_leaves_database_untouched unit env tt
           (ParserRaised Py.ValueError)).
  vm_compute. reflexivity.
Defined.

Lemma update_runs_only_after_publication_witness :
  let env := toy_environment 1 report_sections in
  exists returncode stderr w1 lines d rest,
    subprocess_run env ARGV_CHECK tt = (Exited returncode stderr, w1)
    /\ (0 <= returncode <= 7)%Z
    /\ read_lines env AIDE_LOG_SRC w1 = ReadLines lines
    /\ aideJson (clock_of unit env) lines = Py.Ok (Some d)
    /\ trace_of (mainWorkflow unit env) tt
       = [ PathExists AIDE_DB_DST true;
           PathExists AIDE_LOG_SRC true;
           SubprocessRun ARGV_CHECK (Exited returncode stderr);
           Syslog LOG_INFO (lit "AIDE Check: Changes detected.");
           PathExists AIDE_LOG_SRC true;
           ReadFile AIDE_LOG_SRC;
           WriteFile AIDE_LOG_TMP (json_dumps d ++ [LF]) true;
           PathExists AIDE_LOG_TMP true;
           Rename AIDE_LOG_TMP AIDE_LOG_DST true;
           SubprocessRun ARGV_UPDATE (Exited 1 []) ] ++ rest.
Proof.
  intros env.
  apply (update_runs_only_after_publication unit env tt (Exited 1 [])).
  vm_compute. do 9 right. left. reflexivity.
Defined.

Lemma parser_exception_leaves_the_workflow_witness :
  let env := toy_environment 1 report_no_space in
  mainWorkflow unit env tt
  = (Raised (ParserRaised Py.IndexError), tt,
     [ PathExists AIDE_DB_DST true;
       PathExists AIDE_LOG_SRC true;
       SubprocessRun ARGV_CHECK (Exited 1 []);
       Syslog LOG_INFO (lit "AIDE Check: Changes detected.");
       PathExists AIDE_LOG_SRC true;
       ReadFile AIDE_LOG_SRC ]).
Proof.
  intros env.
  apply (parser_exception_leaves_the_workflow unit env tt tt 1 []
           report_no_space Py.IndexError);
    try reflexivity; try lia; vm_compute; reflexivity.
Defined.

Lemma only_a_parsed_record_is_written_witness :
  let env := toy_environment 0 report_scenario_a in
  let d0 := {| timestamp := Some (lit "2024-01-02 03:04:05.006");
               added_entries := [lit "/etc/passwd"];
               removed_entries := [];
               changed_entries := [];
               summary := [] |} in
  exists returncode stderr w1 lines d,
    subprocess_run env ARGV_CHECK tt = (Exited returncode stderr, w1)
    /\ read_lines env AIDE_LOG_SRC w1 = ReadLines lines
    /\ aideJson (clock_of unit env) lines = Py.Ok (Some d)
    /\ AIDE_LOG_TMP = AIDE_LOG_TMP
    /\ json_dumps d0 ++ [LF] = json_dumps d ++ [LF]
    /\ absent LF (json_dumps d) = true.
Proof.
  intros env d0.
  apply (only_a_parsed_record_is_written unit env tt AIDE_LOG_TMP
           (json_dumps d0 ++ [LF]) true).
  vm_compute. do 6 right. left. reflexivity.
Defined.

Lemma malformed_report_ends_the_workflow_witness :
  let env := toy_environment 0 [line_start; nl "no banner"; line_end] in
  mainWorkflow unit env tt
  = (Returned tt, tt,
     [ PathExists AIDE_DB_DST true;
       PathExists AIDE_LOG_SRC true;
       SubprocessRun ARGV_CHECK (Exited 0 []);
       Syslog LOG_INFO (lit "AIDE Check: Changes detected.");
       PathExists AIDE_LOG_SRC true;
       ReadFile AIDE_LOG_SRC;
       Syslog LOG_ERR
         (structure_message [line_start; nl "no banner"; line_end]);
       Syslog LOG_ERR
         (lit "AIDE Parse: Error: in parsing AIDE log. Exiting...") ]).
Proof.
  intros env.
  apply (malformed_report_ends_the_workflow unit env tt tt 0 []);
    try reflexivity. lia.
Defined.
